(** * East @ West menu generators: a shallow embedding

    Two scripts are modelled.

    - [generate_menu.py]: the class [MenuPDFGenerator], which accumulates
      reportlab flowables in [self.story], and the [main] function that
      feeds it the menu data (module [Menu]).
    - [generate_menu_from_html.py]: [generate_pdf], which hands an HTML
      file to weasyprint, and the [__main__] block (module [FromHtml]).

    reportlab, weasyprint and [os.path] are collaborators: their
    constructors are data constructors here, their fallible calls are
    parameters of the model. *)

From Stdlib Require Import QArith.
From stdpp Require Import gmap strings list fin_maps.
Close Scope Q_scope.
Open Scope string_scope.
Open Scope list_scope.

(** ** Python values, exceptions and outcomes *)

Module Py.

(** The values that occur in the item dictionaries of the source. *)
Inductive pyval :=
| VStr (s : string)
| VBool (b : bool).

(** [str(v)], as used by an f-string field [{v}]. *)
Definition py_str (v : pyval) : string :=
  match v with
  | VStr s => s
  | VBool true => "True"
  | VBool false => "False"
  end.

(** Truth value of a string: only the empty string is false. *)
Definition str_truthy (s : string) : bool :=
  match s with
  | EmptyString => false
  | String _ _ => true
  end.

(** Truth value of a value in a condition. *)
Definition py_truthy (v : pyval) : bool :=
  match v with
  | VStr s => str_truthy s
  | VBool b => b
  end.

(** A raised object.  [except Exception] catches the instances of the
    class [Exception]; [KeyboardInterrupt], [SystemExit] and
    [GeneratorExit] derive from [BaseException] only and pass through. *)
Inductive py_exception :=
| ExceptionInstance (cls : string) (text : string)
| BaseExceptionOnly (cls : string) (text : string).

(** [str(e)]. *)
Definition exc_text (e : py_exception) : string :=
  match e with
  | ExceptionInstance _ t => t
  | BaseExceptionOnly _ t => t
  end.

(** [isinstance(e, Exception)]. *)
Definition is_Exception (e : py_exception) : bool :=
  match e with
  | ExceptionInstance _ _ => true
  | BaseExceptionOnly _ _ => false
  end.

(** What [d[k]] raises when [k] is not a key of [d]; [str] of a
    [KeyError] is the [repr] of the key. *)
Definition KeyError (k : string) : py_exception :=
  ExceptionInstance "KeyError" ("'" +:+ k +:+ "'").

(** A call either returns or raises. *)
Inductive outcome (A : Type) :=
| Returns (a : A)
| Raises (e : py_exception).
Arguments Returns {A} a.
Arguments Raises {A} e.

(** A dict literal [{k1: v1, ..., kn: vn}]: later bindings of a key
    replace earlier ones. *)
Definition dict_literal (l : list (string * pyval)) : gmap string pyval :=
  fold_left (fun m kv => <[kv.1 := kv.2]> m) l ∅.

(** [d[k]]. *)
Definition dict_getitem (d : gmap string pyval) (k : string) : outcome pyval :=
  match d !! k with
  | Some v => Returns v
  | None => Raises (KeyError k)
  end.

(** [d.get(k, dflt)]. *)
Definition dict_get (d : gmap string pyval) (k : string) (dflt : pyval) : pyval :=
  match d !! k with
  | Some v => v
  | None => dflt
  end.

(** A piece of code that runs on a state of type [S]: it leaves a state
    behind and either returns or raises.  When it raises, the effects it
    had before stay in the state. *)
Definition prog (S A : Type) : Type := S -> S * outcome A.

#[export] Instance prog_ret {S} : MRet (prog S) := fun A a s => (s, Returns a).

#[export] Instance prog_bind {S} : MBind (prog S) := fun A B f m s =>
  match m s with
  | (s', Returns a) => f a s'
  | (s', Raises e) => (s', Raises e)
  end.

(** Evaluate an expression that may raise, state untouched. *)
Definition lift {S A} (o : outcome A) : prog S A := fun s => (s, o).

(** [for x in l: body(x)]. *)
Fixpoint for_each {S A} (l : list A) (body : A -> prog S unit) : prog S unit :=
  match l with
  | [] => mret tt
  | x :: rest => body x ;; for_each rest body
  end.

(** [try: body / except Exception as e: handler(e)]. *)
Definition try_except_Exception {S A} (body : prog S A)
    (handler : py_exception -> prog S A) : prog S A :=
  fun s =>
    match body s with
    | (s', Returns a) => (s', Returns a)
    | (s', Raises e) => if is_Exception e then handler e s' else (s', Raises e)
    end.

(** The double quote and the line feed, for literals that contain them. *)
Definition dq : string := String (Ascii.ascii_of_nat 34) EmptyString.
Definition nl : string := String (Ascii.ascii_of_nat 10) EmptyString.

End Py.
Import Py.

(** ** reportlab's flowables, as data *)

Module Reportlab.

(** A length: a bare number of points, or a multiple of [inch]. *)
Inductive measure :=
| Num (q : Q)
| Inches (q : Q).

Inductive color :=
| HexColor (hex : string)
| white.

(** A keyword argument of [ParagraphStyle]. *)
Inductive style_attr :=
| ANum (q : Q)
| AColor (c : color)
| AFont (name : string)
| AAlign (name : string).

(** [ParagraphStyle(name, parent=self.styles[parent], **attrs)]. *)
Record ParagraphStyle := {
  style_name : string;
  style_parent : string;
  style_attrs : list (string * style_attr)
}.

(** An argument of a [TableStyle] command, after the two cell coordinates. *)
Inductive ts_arg :=
| TNum (q : Q)
| TColor (c : color)
| TWord (s : string).

(** One command [(op, start, stop, args...)] of a [TableStyle]. *)
Inductive ts_cmd :=
| TCmd (op : string) (start stop : Z * Z) (args : list ts_arg).

(** The flowables the generator builds.  A table cell holds a flowable or
    a plain string; [hAlign] is [Some a] when the source assigns it. *)
Inductive flowable :=
| Spacer (width height : measure)
| PageBreak
| Paragraph (text : pyval) (style : ParagraphStyle)
| Image (path : string) (width height : measure) (hAlign : option string)
| Table (data : list (list cell)) (colWidths : list measure)
        (style : list ts_cmd) (hAlign : option string)
with cell :=
| CFlow (f : flowable)
| CStr (s : string).

End Reportlab.
Import Reportlab.

(** ** generate_menu.py: the class [MenuPDFGenerator] *)

Module Menu.

(** The attributes of a generator that the methods read or write.
    [self.doc] is the [SimpleDocTemplate] opened on [filename]; the
    paragraph styles built by [_setup_custom_styles] are the constants
    below. *)
Record MenuPDFGenerator := {
  filename : string;
  story : list flowable;
  vegan_icon_path : string;
  vegetarian_icon_path : string
}.

(** [self.story = l]. *)
Definition set_story (l : list flowable) (g : MenuPDFGenerator) : MenuPDFGenerator :=
  {| filename := filename g;
     story := l;
     vegan_icon_path := vegan_icon_path g;
     vegetarian_icon_path := vegetarian_icon_path g |}.

(** [MenuPDFGenerator(filename)]. *)
Definition init (fname : string) : MenuPDFGenerator :=
  {| filename := fname;
     story := [];
     vegan_icon_path := "C:\Users\mbike\Downloads\vegan-sigle.jpg";
     vegetarian_icon_path := "C:\Users\mbike\Downloads\vegetarian-sigle.jpg" |}.

(** *** The styles of [_setup_custom_styles] *)

Definition title_style : ParagraphStyle :=
  {| style_name := "CustomTitle"; style_parent := "Heading1";
     style_attrs :=
       [("fontSize", ANum 26); ("textColor", AColor (HexColor "#1a5d3f"));
        ("spaceAfter", ANum 3); ("alignment", AAlign "TA_CENTER");
        ("fontName", AFont "Helvetica-Bold")] |}.

Definition subtitle_style : ParagraphStyle :=
  {| style_name := "CustomSubtitle"; style_parent := "Normal";
     style_attrs :=
       [("fontSize", ANum 11); ("textColor", AColor (HexColor "#d4af37"));
        ("spaceAfter", ANum 4); ("alignment", AAlign "TA_CENTER");
        ("fontName", AFont "Helvetica-Oblique")] |}.

Definition section_style : ParagraphStyle :=
  {| style_name := "SectionHeader"; style_parent := "Heading1";
     style_attrs :=
       [("fontSize", ANum 12); ("textColor", AColor white);
        ("spaceAfter", ANum 2); ("spaceBefore", ANum 2);
        ("fontName", AFont "Helvetica-Bold"); ("alignment", AAlign "TA_CENTER");
        ("backColor", AColor (HexColor "#1a5d3f")); ("borderPadding", ANum 3)] |}.

Definition item_name_style : ParagraphStyle :=
  {| style_name := "ItemName"; style_parent := "Normal";
     style_attrs :=
       [("fontSize", ANum 8.5); ("textColor", AColor (HexColor "#1a5d3f"));
        ("fontName", AFont "Helvetica-Bold"); ("spaceAfter", ANum 0.5)] |}.

Definition item_desc_style : ParagraphStyle :=
  {| style_name := "ItemDesc"; style_parent := "Normal";
     style_attrs :=
       [("fontSize", ANum 7); ("textColor", AColor (HexColor "#4b5563"));
        ("fontName", AFont "Helvetica"); ("leading", ANum 8)] |}.

Definition price_style : ParagraphStyle :=
  {| style_name := "Price"; style_parent := "Normal";
     style_attrs :=
       [("fontSize", ANum 9.5); ("textColor", AColor (HexColor "#d4af37"));
        ("fontName", AFont "Helvetica-Bold"); ("alignment", AAlign "TA_RIGHT")] |}.

Definition info_style : ParagraphStyle :=
  {| style_name := "InfoBox"; style_parent := "Normal";
     style_attrs :=
       [("fontSize", ANum 7); ("textColor", AColor (HexColor "#1a5d3f"));
        ("fontName", AFont "Helvetica-Oblique"); ("alignment", AAlign "TA_CENTER");
        ("spaceAfter", ANum 2); ("backColor", AColor (HexColor "#f0f9f4"));
        ("borderColor", AColor (HexColor "#1a5d3f")); ("borderWidth", ANum 0.8);
        ("borderPadding", ANum 3)] |}.

Definition footer_style : ParagraphStyle :=
  {| style_name := "Footer"; style_parent := "Normal";
     style_attrs :=
       [("fontSize", ANum 8); ("textColor", AColor (HexColor "#6b7280"));
        ("fontName", AFont "Helvetica"); ("alignment", AAlign "TA_CENTER")] |}.

(** *** Methods as programs on the generator

    A method takes the generator and gives back the generator it leaves
    behind together with its outcome. *)

Abbreviation M := (prog MenuPDFGenerator).

(** Run [m], keep the generator. *)
Definition exec {A} (m : M A) (g : MenuPDFGenerator) : MenuPDFGenerator := (m g).1.

(** [self.story.append(b)]. *)
Definition story_append (b : flowable) : M unit :=
  fun g => (set_story (story g ++ [b]) g, Returns tt).

(** Read an attribute of [self]. *)
Definition self {A} (field : MenuPDFGenerator -> A) : M A :=
  fun g => (g, Returns (field g)).

Section Methods.

(** [os.path.exists], [str.upper] and [SimpleDocTemplate.build]. *)
Variable path_exists : string -> bool.
Variable str_upper : string -> string.
Variable doc_build : string -> list flowable -> outcome unit.

Definition add_cover_page (logo_path : string) : M unit :=
  let top_border :=
    Table [[CStr ""]] [Inches 7.2]
      [TCmd "LINEABOVE" (0, 0)%Z (-1, 0)%Z [TNum 2; TColor (HexColor "#1a5d3f")]]
      None in
  story_append (Spacer (Num 1) (Inches 0.08)) ;;
  story_append top_border ;;
  story_append (Spacer (Num 1) (Inches 0.15)) ;;
  (if str_truthy logo_path && path_exists logo_path then
     let logo := Image logo_path (Inches 1.8) (Inches 1.8) (Some "CENTER") in
     story_append logo ;;
     story_append (Spacer (Num 1) (Inches 0.12))
   else mret tt) ;;
  let desc_style :=
    {| style_name := "Description"; style_parent := "Normal";
       style_attrs :=
         [("fontSize", ANum 11); ("textColor", AColor (HexColor "#1a5d3f"));
          ("alignment", AAlign "TA_CENTER"); ("leading", ANum 13);
          ("fontName", AFont "Helvetica-Bold")] |} in
  let desc := Paragraph (VStr "✦ Authentic Lebanese & Syrian Cuisine ✦") desc_style in
  let desc_table :=
    Table [[CFlow desc]] [Inches 4.8]
      [TCmd "BACKGROUND" (0, 0)%Z (-1, -1)%Z [TColor (HexColor "#f0f9f4")];
       TCmd "BOX" (0, 0)%Z (-1, -1)%Z [TNum 1.5; TColor (HexColor "#d4af37")];
       TCmd "TOPPADDING" (0, 0)%Z (-1, -1)%Z [TNum 5];
       TCmd "BOTTOMPADDING" (0, 0)%Z (-1, -1)%Z [TNum 5];
       TCmd "ALIGN" (0, 0)%Z (-1, -1)%Z [TWord "CENTER"]]
      (Some "CENTER") in
  story_append desc_table ;;
  story_append (Spacer (Num 1) (Inches 0.08)) ;;
  let location_style :=
    {| style_name := "Location"; style_parent := "Normal";
       style_attrs :=
         [("fontSize", ANum 9); ("textColor", AColor (HexColor "#4b5563"));
          ("alignment", AAlign "TA_CENTER"); ("fontName", AFont "Helvetica-Oblique")] |} in
  let location := Paragraph (VStr "Brussels, Belgium • 2025") location_style in
  story_append location ;;
  story_append (Spacer (Num 1) (Inches 0.15)) ;;
  let bottom_border :=
    Table [[CStr ""]] [Inches 7.2]
      [TCmd "LINEBELOW" (0, 0)%Z (-1, 0)%Z [TNum 2; TColor (HexColor "#1a5d3f")]]
      None in
  story_append bottom_border ;;
  story_append PageBreak.

(** The [TableStyle] set on [dietary_content] in both icon branches. *)
Definition dietary_table_style : list ts_cmd :=
  [TCmd "VALIGN" (0, 0)%Z (-1, -1)%Z [TWord "MIDDLE"];
   TCmd "LEFTPADDING" (0, 0)%Z (-1, -1)%Z [TNum 0];
   TCmd "RIGHTPADDING" (0, 0)%Z (0, 0)%Z [TNum 2];
   TCmd "TOPPADDING" (0, 0)%Z (-1, -1)%Z [TNum 0];
   TCmd "BOTTOMPADDING" (0, 0)%Z (-1, -1)%Z [TNum 0]].

Definition add_menu_item (name description price is_vegan is_vegetarian : pyval) : M unit :=
  vegan_icon ← self vegan_icon_path ;
  vegetarian_icon ← self vegetarian_icon_path ;
  let dietary_content :=
    if py_truthy is_vegan && str_truthy vegan_icon && path_exists vegan_icon then
      let dietary_img := Image vegan_icon (Num 10) (Num 10) None in
      CFlow (Table
        [[CFlow dietary_img;
          CFlow (Paragraph (VStr ("<b>" +:+ py_str name +:+ "</b>")) item_name_style)]]
        [Num 12; Inches 5.9] dietary_table_style None)
    else if py_truthy is_vegetarian && str_truthy vegetarian_icon
            && path_exists vegetarian_icon then
      let dietary_img := Image vegetarian_icon (Num 10) (Num 10) None in
      CFlow (Table
        [[CFlow dietary_img;
          CFlow (Paragraph (VStr ("<b>" +:+ py_str name +:+ "</b>")) item_name_style)]]
        [Num 12; Inches 5.9] dietary_table_style None)
    else
      CFlow (Paragraph (VStr ("<b>" +:+ py_str name +:+ "</b>")) item_name_style) in
  let item_data :=
    [[dietary_content;
      CFlow (Paragraph (VStr ("<b>" +:+ py_str price +:+ "</b>")) price_style)];
     [CFlow (Paragraph description item_desc_style); CStr ""]] in
  let item_table :=
    Table item_data [Inches 5.9; Inches 1.3]
      [TCmd "VALIGN" (0, 0)%Z (-1, -1)%Z [TWord "TOP"];
       TCmd "LEFTPADDING" (0, 0)%Z (-1, -1)%Z [TNum 2];
       TCmd "RIGHTPADDING" (0, 0)%Z (-1, -1)%Z [TNum 2];
       TCmd "TOPPADDING" (0, 0)%Z (-1, -1)%Z [TNum 1.5];
       TCmd "BOTTOMPADDING" (0, 0)%Z (-1, -1)%Z [TNum 1.5];
       TCmd "BACKGROUND" (0, 0)%Z (-1, -1)%Z [TColor (HexColor "#fafafa")];
       TCmd "BOX" (0, 0)%Z (-1, -1)%Z [TNum 0.2; TColor (HexColor "#d4af37")];
       TCmd "LINEBELOW" (0, 0)%Z (-1, 0)%Z [TNum 0.3; TColor (HexColor "#e5e7eb")]]
      None in
  story_append item_table ;;
  story_append (Spacer (Num 1) (Inches 0.01)).

Definition add_section (title : string) (items : list (gmap string pyval)) : M unit :=
  let top_border :=
    Table [[CStr ""]] [Inches 7.2]
      [TCmd "LINEABOVE" (0, 0)%Z (-1, 0)%Z [TNum 1; TColor (HexColor "#d4af37")]]
      None in
  story_append top_border ;;
  let header_table :=
    Table [[CFlow (Paragraph (VStr (str_upper title)) section_style)]] [Inches 7.2]
      [TCmd "BACKGROUND" (0, 0)%Z (-1, -1)%Z [TColor (HexColor "#1a5d3f")];
       TCmd "BOX" (0, 0)%Z (-1, -1)%Z [TNum 1; TColor (HexColor "#d4af37")];
       TCmd "TOPPADDING" (0, 0)%Z (-1, -1)%Z [TNum 3];
       TCmd "BOTTOMPADDING" (0, 0)%Z (-1, -1)%Z [TNum 3];
       TCmd "LEFTPADDING" (0, 0)%Z (-1, -1)%Z [TNum 5];
       TCmd "RIGHTPADDING" (0, 0)%Z (-1, -1)%Z [TNum 5]]
      None in
  story_append header_table ;;
  let bottom_border :=
    Table [[CStr ""]] [Inches 7.2]
      [TCmd "LINEBELOW" (0, 0)%Z (-1, 0)%Z [TNum 1; TColor (HexColor "#d4af37")]]
      None in
  story_append bottom_border ;;
  story_append (Spacer (Num 1) (Inches 0.02)) ;;
  for_each items (fun item =>
    name ← lift (dict_getitem item "name") ;
    description ← lift (dict_getitem item "description") ;
    price ← lift (dict_getitem item "price") ;
    add_menu_item name description price
      (dict_get item "is_vegan" (VBool false))
      (dict_get item "is_vegetarian" (VBool false))) ;;
  story_append (Spacer (Num 1) (Inches 0.03)).

Definition add_info_box (text : pyval) : M unit :=
  let info_content :=
    Paragraph (VStr ("<i>✦ " +:+ py_str text +:+ " ✦</i>")) info_style in
  let info_table :=
    Table [[CFlow info_content]] [Inches 7.2]
      [TCmd "BACKGROUND" (0, 0)%Z (-1, -1)%Z [TColor (HexColor "#f0f9f4")];
       TCmd "BOX" (0, 0)%Z (-1, -1)%Z [TNum 0.8; TColor (HexColor "#1a5d3f")];
       TCmd "TOPPADDING" (0, 0)%Z (-1, -1)%Z [TNum 3];
       TCmd "BOTTOMPADDING" (0, 0)%Z (-1, -1)%Z [TNum 3];
       TCmd "LEFTPADDING" (0, 0)%Z (-1, -1)%Z [TNum 6];
       TCmd "RIGHTPADDING" (0, 0)%Z (-1, -1)%Z [TNum 6]]
      None in
  story_append info_table ;;
  story_append (Spacer (Num 1) (Inches 0.03)).

(** The triple-quoted literal [contact_info], line by line; every line of
    the source but the first is indented by eight blanks. *)
Definition contact_info : string :=
  let ind := "        " in
  nl +:+
  ind +:+ "<b><font size=" +:+ dq +:+ "13" +:+ dq +:+ " color=" +:+ dq +:+ "#1a5d3f" +:+ dq
      +:+ ">East @ West Restaurant</font></b><br/>" +:+ nl +:+
  ind +:+ "<br/>" +:+ nl +:+
  ind +:+ "<font size=" +:+ dq +:+ "9" +:+ dq
      +:+ ">Bld de l'Empereur 26 • 1000 Brussels • Belgium</font><br/>" +:+ nl +:+
  ind +:+ "<br/>" +:+ nl +:+
  ind +:+ "<b><font color=" +:+ dq +:+ "#1a5d3f" +:+ dq +:+ ">☎</font></b> <font size="
      +:+ dq +:+ "9" +:+ dq +:+ ">+32 465 20 60 24</font> • " +:+ nl +:+
  ind +:+ "<b><font color=" +:+ dq +:+ "#1a5d3f" +:+ dq +:+ ">✉</font></b> <font size="
      +:+ dq +:+ "9" +:+ dq +:+ ">contact@eastatwest.com</font>" +:+ nl +:+
  ind.

Definition add_contact_page (logo_path : string) : M unit :=
  story_append PageBreak ;;
  story_append (Spacer (Num 1) (Inches 0.3)) ;;
  let contact_title_style :=
    {| style_name := "ContactTitle"; style_parent := "Heading1";
       style_attrs :=
         [("fontSize", ANum 22); ("textColor", AColor white);
          ("spaceAfter", ANum 8); ("alignment", AAlign "TA_CENTER");
          ("fontName", AFont "Helvetica-Bold")] |} in
  let contact_title := Paragraph (VStr "Visit Us") contact_title_style in
  let title_table :=
    Table [[CFlow contact_title]] [Inches 7.2]
      [TCmd "BACKGROUND" (0, 0)%Z (-1, -1)%Z [TColor (HexColor "#1a5d3f")];
       TCmd "BOX" (0, 0)%Z (-1, -1)%Z [TNum 2; TColor (HexColor "#d4af37")];
       TCmd "TOPPADDING" (0, 0)%Z (-1, -1)%Z [TNum 10];
       TCmd "BOTTOMPADDING" (0, 0)%Z (-1, -1)%Z [TNum 10]]
      None in
  story_append title_table ;;
  story_append (Spacer (Num 1) (Inches 0.15)) ;;
  let contact_style :=
    {| style_name := "ContactDetails"; style_parent := "Normal";
       style_attrs :=
         [("fontSize", ANum 10); ("textColor", AColor (HexColor "#1f2937"));
          ("alignment", AAlign "TA_CENTER"); ("leading", ANum 14);
          ("fontName", AFont "Helvetica")] |} in
  let contact := Paragraph (VStr contact_info) contact_style in
  let contact_table :=
    Table [[CFlow contact]] [Inches 6.2]
      [TCmd "BACKGROUND" (0, 0)%Z (-1, -1)%Z [TColor (HexColor "#f0f9f4")];
       TCmd "BOX" (0, 0)%Z (-1, -1)%Z [TNum 1.5; TColor (HexColor "#1a5d3f")];
       TCmd "TOPPADDING" (0, 0)%Z (-1, -1)%Z [TNum 12];
       TCmd "BOTTOMPADDING" (0, 0)%Z (-1, -1)%Z [TNum 12];
       TCmd "LEFTPADDING" (0, 0)%Z (-1, -1)%Z [TNum 10];
       TCmd "RIGHTPADDING" (0, 0)%Z (-1, -1)%Z [TNum 10]]
      (Some "CENTER") in
  story_append contact_table ;;
  story_append (Spacer (Num 1) (Inches 0.15)) ;;
  let button_style :=
    {| style_name := "Button"; style_parent := "Normal";
       style_attrs :=
         [("fontSize", ANum 12); ("textColor", AColor white);
          ("alignment", AAlign "TA_CENTER"); ("fontName", AFont "Helvetica-Bold")] |} in
  let button := Paragraph (VStr "BOOK A TABLE") button_style in
  let button_table :=
    Table [[CFlow button]] [Inches 2.5]
      [TCmd "BACKGROUND" (0, 0)%Z (-1, -1)%Z [TColor (HexColor "#d4af37")];
       TCmd "BOX" (0, 0)%Z (-1, -1)%Z [TNum 1.5; TColor (HexColor "#1a5d3f")];
       TCmd "TOPPADDING" (0, 0)%Z (-1, -1)%Z [TNum 6];
       TCmd "BOTTOMPADDING" (0, 0)%Z (-1, -1)%Z [TNum 6];
       TCmd "ALIGN" (0, 0)%Z (-1, -1)%Z [TWord "CENTER"]]
      (Some "CENTER") in
  story_append button_table ;;
  story_append (Spacer (Num 1) (Inches 0.12)) ;;
  let footer_msg_style :=
    {| style_name := "FooterMsg"; style_parent := "Normal";
       style_attrs :=
         [("fontSize", ANum 9); ("textColor", AColor (HexColor "#4b5563"));
          ("alignment", AAlign "TA_CENTER"); ("fontName", AFont "Helvetica-Oblique")] |} in
  let footer_msg :=
    Paragraph (VStr "<i>We look forward to serving you!</i>") footer_msg_style in
  story_append footer_msg ;;
  story_append (Spacer (Num 1) (Inches 0.2)) ;;
  if str_truthy logo_path && path_exists logo_path then
    let footer_logo := Image logo_path (Inches 0.9) (Inches 0.9) (Some "CENTER") in
    story_append footer_logo
  else mret tt.

(** [self.doc.build(self.story)]. *)
Definition build : M unit :=
  fun g => (g, doc_build (filename g) (story g)).

End Methods.

(** *** The menu data of [main] *)

Definition cold_mezzes : list (gmap string pyval) :=
  [
    dict_literal
      [("name", VStr "Zahra");
       ("description", VStr "Cooked cauliflower, marinated in a homemade sauce (tomato, garlic and lemon), topped with lemon tahini sauce");
       ("price", VStr "7,50€");
       ("is_vegetarian", VBool true)];
    dict_literal
      [("name", VStr "Muhammara");
       ("description", VStr "Grilled red pepper dip, pomegranate molasses and walnuts");
       ("price", VStr "8€");
       ("is_vegan", VBool true)];
    dict_literal
      [("name", VStr "Makdous");
       ("description", VStr "Baby eggplants stuffed with walnuts and peppers marinated in olive oil");
       ("price", VStr "8€");
       ("is_vegan", VBool true)];
    dict_literal
      [("name", VStr "Itch");
       ("description", VStr "Bulgur cooked in tomato sauce with peppers, onion, parsley and pomegranate molasses");
       ("price", VStr "7,50€");
       ("is_vegan", VBool true)];
    dict_literal
      [("name", VStr "Hummus");
       ("description", VStr "Chickpea puree with tahini (sesame paste)");
       ("price", VStr "7,50€");
       ("is_vegan", VBool true)];
    dict_literal
      [("name", VStr "Moutabal");
       ("description", VStr "Grilled eggplant caviar with tahini (sesame paste)");
       ("price", VStr "8€");
       ("is_vegan", VBool true)];
    dict_literal
      [("name", VStr "Warak Enab");
       ("description", VStr "Vine leaves stuffed with rice, herbs, marinated in olive oil, mint and pomegranate molasses");
       ("price", VStr "7€");
       ("is_vegan", VBool true)];
    dict_literal
      [("name", VStr "Moussaka");
       ("description", VStr "Eggplant, onion, chickpeas and tomato");
       ("price", VStr "7,50€");
       ("is_vegan", VBool true)]
  ].

Definition warm_mezzes : list (gmap string pyval) :=
  [
    dict_literal
      [("name", VStr "Oriental Eggplant");
       ("description", VStr "Grilled eggplant topped with minced meat cooked with onion, tomato and pepper");
       ("price", VStr "13,50€")];
    dict_literal
      [("name", VStr "Chicken Liver");
       ("description", VStr "Chicken liver cooked with onion and special spices. Served with pomegranate sauce");
       ("price", VStr "11,50€")];
    dict_literal
      [("name", VStr "Fatteh");
       ("description", VStr "Cooked chickpeas, fried Lebanese bread, garlic and homemade lemon tahini sauce");
       ("price", VStr "7,50€");
       ("is_vegetarian", VBool true)];
    dict_literal
      [("name", VStr "Falafel (2 pcs)");
       ("description", VStr "Fried chickpea balls served with tahini sauce");
       ("price", VStr "4€");
       ("is_vegan", VBool true)];
    dict_literal
      [("name", VStr "Grilled Syrian Cheese");
       ("description", VStr "Grilled Syrian cheese");
       ("price", VStr "10€");
       ("is_vegetarian", VBool true)];
    dict_literal
      [("name", VStr "Kibbeh (2 pcs)");
       ("description", VStr "Fried bulgur croquettes stuffed with minced meat, onion and walnuts");
       ("price", VStr "7€")];
    dict_literal
      [("name", VStr "Sujuk");
       ("description", VStr "Oven-baked Lebanese bread stuffed with seasoned minced meat, tomato and pickles");
       ("price", VStr "12,50€")];
    dict_literal
      [("name", VStr "Arayes Cheese");
       ("description", VStr "Oven-baked Lebanese bread stuffed with Syrian cheese");
       ("price", VStr "10€");
       ("is_vegetarian", VBool true)];
    dict_literal
      [("name", VStr "Toshka");
       ("description", VStr "Oven-baked Lebanese bread stuffed with minced meat and Syrian cheese");
       ("price", VStr "12,50€")];
    dict_literal
      [("name", VStr "Batata Harra");
       ("description", VStr "Fried potato cubes with red peppers, coriander and garlic");
       ("price", VStr "7,50€");
       ("is_vegan", VBool true)];
    dict_literal
      [("name", VStr "Foul Moudamas");
       ("description", VStr "Fava beans marinated with lemon juice, tomatoes, cumin, garlic, olive oil and tahini sauce");
       ("price", VStr "8€");
       ("is_vegan", VBool true)]
  ].

Definition tasting_menus : list (gmap string pyval) :=
  [
    dict_literal
      [("name", VStr "Menu East@West");
       ("description", VStr "Fattoush, Hummus, Moutabal, Zahra, Falafel, 2× Kibbeh, 2× Kabab skewers, 2× Chich taouk, 2× Dessert");
       ("price", VStr "67,50€")];
    dict_literal
      [("name", VStr "Menu Vegan");
       ("description", VStr "Fattoush, Hummus, Moutabal, Moussaka, Itch, Zahra, 2× Falafel, Batata Harra, 2× Dessert");
       ("price", VStr "64,50€");
       ("is_vegan", VBool true)];
    dict_literal
      [("name", VStr "Menu Sahten");
       ("description", VStr "Tabouleh, Hummus, Toshka, Sujuk, Chicken liver, 2× Kibbeh, 2× Skewers, 2× Dessert");
       ("price", VStr "84€")];
    dict_literal
      [("name", VStr "Menu Lazeez");
       ("description", VStr "Tabouleh, Hummus, Moutabal, Muhammara, Warak Enab, Moussaka, Foul Moudamas, 2× Falafel, 2× Dessert");
       ("price", VStr "65,50€");
       ("is_vegan", VBool true)]
  ].

Definition dishes : list (gmap string pyval) :=
  [
    dict_literal
      [("name", VStr "Foodie Meat");
       ("description", VStr "Hummus, Zahra, Kibbeh, 1× Chich taouk, 1× Kabab, Foul moudamas, Fattouch");
       ("price", VStr "24€")];
    dict_literal
      [("name", VStr "Foodie Vegan");
       ("description", VStr "Hummus, Zahra, 2× Warak eneb, 2× Falafel, Batata harra, Foul moudamas, Fattouch");
       ("price", VStr "24€");
       ("is_vegan", VBool true)];
    dict_literal
      [("name", VStr "Chef's Mezze");
       ("description", VStr "Grilled minced meat with mushrooms, onion, lemon tahini sauce and parsley");
       ("price", VStr "13,50€")]
  ].

Definition skewers : list (gmap string pyval) :=
  [
    dict_literal
      [("name", VStr "2× Shish Taouk");
       ("description", VStr "Chicken skewers");
       ("price", VStr "10€")];
    dict_literal
      [("name", VStr "2× Kebab");
       ("description", VStr "Beef skewers");
       ("price", VStr "10€")]
  ].

Definition lunch_dishes : list (gmap string pyval) :=
  [
    dict_literal
      [("name", VStr "Chef's Dish");
       ("description", VStr "1 kebab, 1 chich taouk, warak eneb, kibbeh, cauliflower, muhammara, fattouch");
       ("price", VStr "23,50€")];
    dict_literal
      [("name", VStr "Sujuk");
       ("description", VStr "Lebanese bread stuffed with minced meat, tomato, pickles + hummus, moutabal, Fattoush");
       ("price", VStr "20,80€")];
    dict_literal
      [("name", VStr "Toshka");
       ("description", VStr "Lebanese bread stuffed with minced meat and Syrian cheese + hummus, moutabal, Fattoush");
       ("price", VStr "20,80€")];
    dict_literal
      [("name", VStr "Chich Taouk");
       ("description", VStr "2 chicken skewers + hummus, itch (bulgur), fattoush, pickles, garlic sauce");
       ("price", VStr "19€")];
    dict_literal
      [("name", VStr "Mix Grill");
       ("description", VStr "1 kebab and 1 chich taouk + hummus, itch (bulgur), fattoush");
       ("price", VStr "19€")];
    dict_literal
      [("name", VStr "Kebab");
       ("description", VStr "2 seasoned minced meat skewers + hummus, fattoush");
       ("price", VStr "19€")];
    dict_literal
      [("name", VStr "Mix Break");
       ("description", VStr "Hummus, itch (bulgur), kabab/chich taouk, cauliflower, fattouch");
       ("price", VStr "16,50€")];
    dict_literal
      [("name", VStr "Falafel");
       ("description", VStr "4 pieces falafel + hummus, moutabal, Fattoush, tahini sauce, pickles");
       ("price", VStr "18€");
       ("is_vegan", VBool true)];
    dict_literal
      [("name", VStr "Mix Break Vegan");
       ("description", VStr "Hummus, warak eneb, itch (bulgur), cauliflower, fattouch");
       ("price", VStr "14,50€");
       ("is_vegan", VBool true)]
  ].

Definition sandwiches : list (gmap string pyval) :=
  [
    dict_literal
      [("name", VStr "Falafel Sandwich + Fattoush Salad");
       ("description", VStr "Falafel, tomato, tahini, pickles, lettuce");
       ("price", VStr "12,50€");
       ("is_vegan", VBool true)];
    dict_literal
      [("name", VStr "Chich Taouk + Fattoush Salad");
       ("description", VStr "Grilled chicken, lettuce, tomato, garlic sauce");
       ("price", VStr "12,50€")];
    dict_literal
      [("name", VStr "Kabab + Fattoush Salad");
       ("description", VStr "Minced meat, hummus, tomato, lettuce, onion");
       ("price", VStr "12,50€")]
  ].

Definition salads : list (gmap string pyval) :=
  [
    dict_literal
      [("name", VStr "Original Tabouleh");
       ("description", VStr "Parsley, tomato, onion, lemon, bulgur, mint");
       ("price", VStr "8€");
       ("is_vegan", VBool true)];
    dict_literal
      [("name", VStr "Fattoush");
       ("description", VStr "Tomato, lettuce, red cabbage, radish, cucumber, onion");
       ("price", VStr "8€");
       ("is_vegan", VBool true)];
    dict_literal
      [("name", VStr "Falafel Salad");
       ("description", VStr "Falafel, lettuce, cucumber, tomato, pickles, tahini");
       ("price", VStr "13,50€");
       ("is_vegan", VBool true)]
  ].

(** *** [main] and sequences of builder calls *)

(** One call of a builder method, with its arguments. *)
Inductive call :=
| Call_add_cover_page (logo_path : string)
| Call_add_menu_item (name description price is_vegan is_vegetarian : pyval)
| Call_add_section (title : string) (items : list (gmap string pyval))
| Call_add_info_box (text : pyval)
| Call_add_contact_page (logo_path : string).

Section Script.

Variable path_exists : string -> bool.
Variable str_upper : string -> string.
Variable doc_build : string -> list flowable -> outcome unit.

Definition do_call (c : call) : M unit :=
  match c with
  | Call_add_cover_page logo_path => add_cover_page path_exists logo_path
  | Call_add_menu_item name description price is_vegan is_vegetarian =>
      add_menu_item path_exists name description price is_vegan is_vegetarian
  | Call_add_section title items => add_section path_exists str_upper title items
  | Call_add_info_box text => add_info_box text
  | Call_add_contact_page logo_path => add_contact_page path_exists logo_path
  end.

(** The calls made one after the other; the first one that raises ends
    the sequence. *)
Definition run (calls : list call) : M unit := for_each calls do_call.

Definition logo_path : string := "C:\Users\mbike\.claude\projects\menu-project\logo.png".

(** The body of [main] from [pdf.add_cover_page] to [pdf.build()]. *)
Definition main_calls : M unit :=
  add_cover_page path_exists logo_path ;;
  add_section path_exists str_upper "Cold Mezzes" cold_mezzes ;;
  add_section path_exists str_upper "Warm Mezzes" warm_mezzes ;;
  add_info_box (VStr "All tasting menus serve 2 people") ;;
  add_section path_exists str_upper "Tasting Menus / 2 People" tasting_menus ;;
  add_section path_exists str_upper "Dishes" dishes ;;
  add_info_box (VStr "All skewers served with garlic sauce and pickles") ;;
  add_section path_exists str_upper "Skewers" skewers ;;
  add_info_box (VStr "All dishes are served with Lebanese bread") ;;
  add_section path_exists str_upper "Lunch Dishes" lunch_dishes ;;
  add_section path_exists str_upper "Sandwich + Salad Formulas" sandwiches ;;
  add_section path_exists str_upper "Salads" salads ;;
  add_contact_page path_exists logo_path ;;
  build doc_build.

(** [main()]: the generator [pdf] as it is when [main] ends, the lines
    printed, and the outcome.  Nothing is caught: what a call raises
    leaves [main]. *)
Definition main : MenuPDFGenerator * list string * outcome unit :=
  match main_calls (init "east_west_menu.pdf") with
  | (pdf, Returns _) =>
      (pdf, ["PDF menu generated successfully!"; "Saved to: east_west_menu.pdf"], Returns tt)
  | (pdf, Raises e) => (pdf, [], Raises e)
  end.

End Script.
End Menu.

(** ** generate_menu_from_html.py *)

Module FromHtml.

(** What the script does to the outside, in order: lines printed, and
    calls into weasyprint.  [Call_write_pdf] is the only step that writes
    a file. *)
Inductive event :=
| Print (line : string)
| Call_CSS (source : string)
| Call_HTML (fname : string)
| Call_write_pdf (fname target : string).

Abbreviation IO := (prog (list event)).

Definition emit (e : event) : IO unit := fun tr => ((tr ++ [e])%list, Returns tt).

(** [print(line)]; writing to standard output is taken to succeed. *)
Definition print (line : string) : IO unit := emit (Print line).

(** How the process ends: an exit code, or the traceback of an object
    nothing caught. *)
Inductive exit_status :=
| Exit (code : Z)
| Uncaught (e : py_exception).

(** The stylesheet literal passed to [CSS(string=...)]. *)
Definition pdf_css_source : string := "
            @page {
                size: A4;
                margin: 0.5cm;
            }

            body {
                background: white !important;
            }

            .actions {
                display: none !important;
            }

            .menu-item input,
            .menu-item textarea {
                border: none !important;
                background: transparent !important;
                padding: 0 !important;
                pointer-events: none;
            }

            .item-name input {
                font-size: 16px !important;
                font-weight: bold !important;
                color: #1a5d3f !important;
            }

            .item-description textarea {
                font-size: 14px !important;
                color: #4b5563 !important;
                height: auto !important;
            }

            .item-price input {
                font-size: 18px !important;
                font-weight: bold !important;
                color: #d4af37 !important;
                text-align: right !important;
            }

            /* Page breaks */
            .section {
                page-break-inside: avoid;
            }

            .menu-item {
                page-break-inside: avoid;
            }
        ".

Section Driver.

(** [os.path.exists], [os.path.join], [os.path.dirname(__file__)], and
    weasyprint: the objects [CSS] and [HTML] build and what each call
    into it does. *)
Variable path_exists : string -> bool.
Variable path_join : string -> string -> string.
Variable script_dir : string.
Variables css html : Type.
Variable weasy_CSS : string -> outcome css.
Variable weasy_HTML : string -> outcome html.
Variable weasy_write_pdf : html -> string -> list css -> outcome unit.

Definition CSS (source : string) : IO css :=
  emit (Call_CSS source) ;; lift (weasy_CSS source).

Definition HTML (fname : string) : IO html :=
  emit (Call_HTML fname) ;; lift (weasy_HTML fname).

Definition write_pdf (fname : string) (doc : html) (target : string)
    (stylesheets : list css) : IO unit :=
  emit (Call_write_pdf fname target) ;; lift (weasy_write_pdf doc target stylesheets).

Definition generate_pdf : IO bool :=
  let html_file := path_join script_dir "menu_editor.html" in
  let output_pdf := path_join script_dir "east_west_menu_final.pdf" in
  if negb (path_exists html_file) then
    print ("Error: HTML file not found at " +:+ html_file) ;;
    mret false
  else
    print ("Reading HTML from: " +:+ html_file) ;;
    print "Generating PDF..." ;;
    try_except_Exception
      (pdf_css ← CSS pdf_css_source ;
       doc ← HTML html_file ;
       write_pdf html_file doc output_pdf [pdf_css] ;;
       print "✓ PDF generated successfully!" ;;
       print ("✓ Saved to: " +:+ output_pdf) ;;
       mret true)
      (fun e =>
         print ("Error generating PDF: " +:+ exc_text e) ;;
         mret false).

(** What the three calls into weasyprint of the [try] body come to, in
    the order the body makes them: the first that raises decides. *)
Definition rendering : outcome unit :=
  match weasy_CSS pdf_css_source with
  | Raises e => Raises e
  | Returns pdf_css =>
      match weasy_HTML (path_join script_dir "menu_editor.html") with
      | Raises e => Raises e
      | Returns doc =>
          weasy_write_pdf doc (path_join script_dir "east_west_menu_final.pdf") [pdf_css]
      end
  end.

(** An event that is a call into weasyprint. *)
Definition is_call (ev : event) : bool :=
  match ev with
  | Print _ => false
  | _ => true
  end.

(** The [__main__] block: [success = generate_pdf()] and then
    [sys.exit(0 if success else 1)].  The import of weasyprint at the top
    of the module, with its fallback to [pip install], has happened
    before and is not part of the model. *)
Definition script : list event * exit_status :=
  match generate_pdf [] with
  | (tr, Returns success) => (tr, Exit (if success then 0 else 1)%Z)
  | (tr, Raises e) => (tr, Uncaught e)
  end.

End Driver.
End FromHtml.

(** ** Reading a document tree

    What a block shows, for stating properties of the blocks a method
    appends without repeating their layout attributes. *)

Module Doc.

(** What a block of the story is, by its shape.
    - [KBorder]: a table of one empty cell (the decorative rules);
    - [KBox s t]: a table of one cell holding a paragraph of style [s]
      and text [t] (a section header is the box of style SectionHeader);
    - [KItem icon name price description]: the two-row table of
      [add_menu_item]; [icon] is the path of the image put before the
      name, if there is one. *)
Inductive kind :=
| KSpacer
| KPageBreak
| KImage (path : string)
| KBorder
| KParagraph (style : string) (text : pyval)
| KBox (style : string) (text : pyval)
| KItem (icon : option string) (name price description : pyval)
| KOther.

(** The first cell of an item row: a bare name paragraph, or a one-row
    table of an image and the name paragraph. *)
Definition name_cell_view (c : cell) : option (option string * pyval) :=
  match c with
  | CFlow (Paragraph n _) => Some (None, n)
  | CFlow (Table [[CFlow (Image p _ _ _); CFlow (Paragraph n _)]] _ _ _) =>
      Some (Some p, n)
  | _ => None
  end.

Definition kind_of (b : flowable) : kind :=
  match b with
  | Spacer _ _ => KSpacer
  | PageBreak => KPageBreak
  | Image p _ _ _ => KImage p
  | Paragraph t st => KParagraph (style_name st) t
  | Table [[CStr ""]] _ _ _ => KBorder
  | Table [[CFlow (Paragraph t st)]] _ _ _ => KBox (style_name st) t
  | Table [[c; CFlow (Paragraph p _)]; [CFlow (Paragraph d _); CStr ""]] _ _ _ =>
      match name_cell_view c with
      | Some (icon, n) => KItem icon n p d
      | None => KOther
      end
  | Table _ _ _ _ => KOther
  end.

(** A section header showing [t]. *)
Definition KHeader (t : string) : kind := KBox "SectionHeader" (VStr t).

Definition is_header (k : kind) : bool :=
  match k with
  | KBox s _ => String.eqb s "SectionHeader"
  | _ => false
  end.

Definition is_item (k : kind) : bool :=
  match k with
  | KItem _ _ _ _ => true
  | _ => false
  end.

(** The paths of the images in a block, and the texts in it, left to
    right and top to bottom. *)
Fixpoint images (b : flowable) : list string :=
  match b with
  | Image p _ _ _ => [p]
  | Table data _ _ _ => concat (map (fun row => concat (map cell_images row)) data)
  | _ => []
  end
with cell_images (c : cell) : list string :=
  match c with
  | CFlow f => images f
  | CStr _ => []
  end.

Fixpoint texts (b : flowable) : list pyval :=
  match b with
  | Paragraph t _ => [t]
  | Table data _ _ _ => concat (map (fun row => concat (map cell_texts row)) data)
  | _ => []
  end
with cell_texts (c : cell) : list pyval :=
  match c with
  | CFlow f => texts f
  | CStr s => [VStr s]
  end.

Definition story_images (l : list flowable) : list string := concat (map images l).
Definition story_texts (l : list flowable) : list pyval := concat (map texts l).

(** [str.upper] on ASCII text: the letters a to z are mapped to A to Z,
    every other character stays. *)
Definition ascii_upper_char (c : Ascii.ascii) : Ascii.ascii :=
  let n := Ascii.nat_of_ascii c in
  if (97 <=? n)%nat && (n <=? 122)%nat then Ascii.ascii_of_nat (n - 32) else c.

Fixpoint ascii_upper (s : string) : string :=
  match s with
  | EmptyString => EmptyString
  | String c rest => String (ascii_upper_char c) (ascii_upper rest)
  end.

(** A generator whose icon paths are the ones [__init__] assigns; no
    method assigns them again. *)
Definition initialised (g : Menu.MenuPDFGenerator) : Prop :=
  Menu.vegan_icon_path g = Menu.vegan_icon_path (Menu.init "")
  /\ Menu.vegetarian_icon_path g = Menu.vegetarian_icon_path (Menu.init "").

(** An item dictionary that has the three keys [add_section] subscripts,
    bound to strings. *)
Definition item_strings (item : gmap string pyval) (n d p : string) : Prop :=
  item !! "name" = Some (VStr n)
  /\ item !! "description" = Some (VStr d)
  /\ item !! "price" = Some (VStr p).

(** The icon [add_menu_item] puts before the name: the vegan one when the
    item is flagged vegan and the file is there, otherwise the vegetarian
    one when the item is flagged vegetarian and that file is there. *)
Definition chosen_icon (fs : string -> bool) (g : Menu.MenuPDFGenerator)
    (is_vegan is_vegetarian : pyval) : option string :=
  if py_truthy is_vegan && str_truthy (Menu.vegan_icon_path g)
     && fs (Menu.vegan_icon_path g)
  then Some (Menu.vegan_icon_path g)
  else if py_truthy is_vegetarian && str_truthy (Menu.vegetarian_icon_path g)
          && fs (Menu.vegetarian_icon_path g)
  then Some (Menu.vegetarian_icon_path g)
  else None.

(** The text of a name or price paragraph: the value between bold tags. *)
Definition bold (v : pyval) : pyval := VStr ("<b>" +:+ py_str v +:+ "</b>").

(** What the item block of the dictionary [item] shows, when [item] has
    the strings [n], [d] and [p] for name, description and price. *)
Definition item_shown (fs : string -> bool) (g : Menu.MenuPDFGenerator)
    (item : gmap string pyval) (k : kind) : Prop :=
  exists n d p,
    item_strings item n d p
    /\ k = KItem
             (chosen_icon fs g (dict_get item "is_vegan" (VBool false))
                (dict_get item "is_vegetarian" (VBool false)))
             (VStr ("<b>" +:+ n +:+ "</b>")) (VStr ("<b>" +:+ p +:+ "</b>")) (VStr d).

(** An item block and the spacer after it, for each of [ks]. *)
Definition spaced (ks : list kind) : list kind :=
  flat_map (fun k => [k; KSpacer]) ks.

(** The blocks of one call: what the call leaves on a generator like [g]
    whose story is empty. *)
Definition blocks_of (fs : string -> bool) (up : string -> string)
    (c : Menu.call) (g : Menu.MenuPDFGenerator) : list flowable :=
  Menu.story (Menu.exec (Menu.do_call fs up c) (Menu.set_story [] g)).

(** How many calls of a sequence are entered: all of them when every
    call returns, otherwise those up to and with the first that raises. *)
Fixpoint entered (fs : string -> bool) (up : string -> string)
    (calls : list Menu.call) (g : Menu.MenuPDFGenerator) : nat :=
  match calls with
  | [] => 0
  | c :: rest =>
      match Menu.do_call fs up c g with
      | (g', Returns _) => S (entered fs up rest g')
      | (_, Raises _) => 1
      end
  end.

(** The first of the keys [add_section] subscripts that [item] lacks, in
    the order the call evaluates them. *)
Definition first_missing (item : gmap string pyval) : option string :=
  match item !! "name", item !! "description", item !! "price" with
  | None, _, _ => Some "name"
  | Some _, None, _ => Some "description"
  | Some _, Some _, None => Some "price"
  | Some _, Some _, Some _ => None
  end.

(** The call of [add_menu_item] that the loop of [add_section] makes for
    an item that has its three keys. *)
Definition item_call (item : gmap string pyval) : Menu.call :=
  Menu.Call_add_menu_item
    (dict_get item "name" (VStr "")) (dict_get item "description" (VStr ""))
    (dict_get item "price" (VStr ""))
    (dict_get item "is_vegan" (VBool false))
    (dict_get item "is_vegetarian" (VBool false)).

(** [files_checked fs m]: if every image of the story refers to a file
    that [fs] has, this is still so after [m]. *)
Definition files_checked {A} (fs : string -> bool) (m : Menu.M A) : Prop :=
  forall g,
    Forall (fun p => fs p = true) (story_images (Menu.story g)) ->
    Forall (fun p => fs p = true) (story_images (Menu.story (m g).1)).

(** [same_texts m1 m2]: started on stories with the same texts, [m1] and
    [m2] leave stories with the same texts, and have the same outcome. *)
Definition same_texts {A} (m1 m2 : Menu.M A) : Prop :=
  forall g1 g2,
    story_texts (Menu.story g1) = story_texts (Menu.story g2) ->
    story_texts (Menu.story (m1 g1).1) = story_texts (Menu.story (m2 g2).1)
    /\ (m1 g1).2 = (m2 g2).2.

(** [appender m]: on a generator [g], [m] appends a list of blocks that
    does not depend on the story already there, with an outcome that does
    not depend on it either, and changes nothing else. *)
Definition appender {A} (m : Menu.M A) : Prop :=
  forall g, exists delta r,
    forall l, m (Menu.set_story l g) = (Menu.set_story (l ++ delta) g, r).

End Doc.

(** ** Reading a run of generate_menu_from_html.py *)

Module HtmlDoc.
Import FromHtml.

Section Calls.

Variable path_join : string -> string -> string.
Variable script_dir : string.
Variables css html : Type.
Variable weasy_CSS : string -> outcome css.
Variable weasy_HTML : string -> outcome html.

(** The calls into weasyprint that the [try] body gets to make:
    [HTML(...)] is reached when [CSS(...)] returned, [write_pdf] when
    both returned. *)
Definition calls_made : list event :=
  let html_file := path_join script_dir "menu_editor.html" in
  let output_pdf := path_join script_dir "east_west_menu_final.pdf" in
  match weasy_CSS pdf_css_source with
  | Raises _ => [Call_CSS pdf_css_source]
  | Returns _ =>
      match weasy_HTML html_file with
      | Raises _ => [Call_CSS pdf_css_source; Call_HTML html_file]
      | Returns _ =>
          [Call_CSS pdf_css_source; Call_HTML html_file;
           Call_write_pdf html_file output_pdf]
      end
  end.

End Calls.
End HtmlDoc.

(** * Properties *)

(** ** The builder only appends *)

Module Builder.
Import Menu Doc.

Lemma set_story_id (g : MenuPDFGenerator) : set_story (story g) g = g.
Proof. by destruct g. Qed.

Lemma appender_ret {A} (a : A) : appender (mret a).
Proof.
  intros g. exists [], (Returns a). intros l.
  by rewrite app_nil_r.
Qed.

Lemma appender_lift {A} (o : outcome A) : appender (lift o).
Proof.
  intros g. exists [], o. intros l. unfold lift.
  by rewrite app_nil_r.
Qed.

Lemma appender_story_append (b : flowable) : appender (story_append b).
Proof. intros g. by exists [b], (Returns tt). Qed.

Lemma appender_bind {A B} (m : M A) (k : A -> M B) :
  appender m -> (forall a, appender (k a)) -> appender (m ≫= k).
Proof.
  intros Hm Hk g. destruct (Hm g) as (d1 & r1 & E1).
  destruct r1 as [a|e].
  - destruct (Hk a g) as (d2 & r2 & E2).
    exists (d1 ++ d2), r2. intros l.
    unfold mbind, prog_bind. rewrite E1, E2. by rewrite app_assoc.
  - exists d1, (Raises e). intros l.
    unfold mbind, prog_bind. by rewrite E1.
Qed.

Lemma appender_self_vegan {B} (k : string -> M B) :
  (forall p, appender (k p)) -> appender (self vegan_icon_path ≫= k).
Proof.
  intros Hk g. destruct (Hk (vegan_icon_path g) g) as (d & r & E).
  exists d, r. intros l. unfold mbind, prog_bind, self. by rewrite <- E.
Qed.

Lemma appender_self_vegetarian {B} (k : string -> M B) :
  (forall p, appender (k p)) -> appender (self vegetarian_icon_path ≫= k).
Proof.
  intros Hk g. destruct (Hk (vegetarian_icon_path g) g) as (d & r & E).
  exists d, r. intros l. unfold mbind, prog_bind, self. by rewrite <- E.
Qed.

Lemma appender_if {A} (c : bool) (m1 m2 : M A) :
  appender m1 -> appender m2 -> appender (if c then m1 else m2).
Proof. by destruct c. Qed.

Lemma appender_for_each {A} (l : list A) (body : A -> M unit) :
  (forall x, appender (body x)) -> appender (for_each l body).
Proof.
  intros Hb. induction l as [|x l IH]; simpl.
  - apply appender_ret.
  - apply appender_bind; [apply Hb | intros _; apply IH].
Qed.

Ltac appender_steps :=
  repeat first
    [ apply appender_self_vegan; intros ?
    | apply appender_self_vegetarian; intros ?
    | apply appender_bind; [| intros ?]
    | apply appender_for_each; intros ?
    | apply appender_if
    | apply appender_story_append
    | apply appender_lift
    | apply appender_ret ].

Lemma appender_add_menu_item fs name description price is_vegan is_vegetarian :
  appender (add_menu_item fs name description price is_vegan is_vegetarian).
Proof. unfold add_menu_item. appender_steps. Qed.

Lemma appender_add_cover_page fs logo : appender (add_cover_page fs logo).
Proof. unfold add_cover_page. appender_steps. Qed.

Lemma appender_add_section fs up title items : appender (add_section fs up title items).
Proof.
  unfold add_section. appender_steps.
Qed.

Lemma appender_add_info_box text : appender (add_info_box text).
Proof. unfold add_info_box. appender_steps. Qed.

Lemma appender_add_contact_page fs logo : appender (add_contact_page fs logo).
Proof. unfold add_contact_page. appender_steps. Qed.

Lemma appender_do_call fs up c : appender (do_call fs up c).
Proof.
  destruct c; simpl;
    auto using appender_add_menu_item, appender_add_cover_page,
      appender_add_section, appender_add_info_box, appender_add_contact_page.
Qed.


Lemma bind_returns {A B} (m : M A) (k : A -> M B) g g' a :
  m g = (g', Returns a) -> (m ≫= k) g = k a g'.
Proof. intros E. unfold mbind, prog_bind. by rewrite E. Qed.

Lemma bind_raises {A B} (m : M A) (k : A -> M B) g g' e :
  m g = (g', Raises e) -> (m ≫= k) g = (g', Raises e).
Proof. intros E. unfold mbind, prog_bind. by rewrite E. Qed.

(** From [appender]: what a method leaves is the story it found followed
    by what it leaves on an empty story. *)
Lemma appender_story {A} (m : M A) (g : MenuPDFGenerator) :
  appender m ->
  story (exec m g) = story g ++ story (exec m (set_story [] g))
  /\ (m g).2 = (m (set_story [] g)).2.
Proof.
  intros Hm. destruct (Hm g) as (d & r & E). unfold exec.
  pose proof (E (story g)) as E1. rewrite set_story_id in E1.
  rewrite E1, (E []). done.
Qed.

(** ** [add_menu_item] *)

Lemma add_menu_item_block fs name description price is_vegan is_vegetarian g :
  exists b,
    add_menu_item fs name description price is_vegan is_vegetarian g
      = (set_story (story g ++ [b; Spacer (Num 1) (Inches 0.01)]) g, Returns tt)
    /\ kind_of b
        = KItem (chosen_icon fs g is_vegan is_vegetarian)
            (bold name) (bold price) description
    /\ images b = option_list (chosen_icon fs g is_vegan is_vegetarian).
Proof.
  unfold add_menu_item, chosen_icon, mbind, prog_bind, self, story_append. simpl.
  rewrite <- app_assoc. simpl.
  destruct (py_truthy is_vegan && str_truthy (vegan_icon_path g)
            && fs (vegan_icon_path g)).
  { eexists. split; [reflexivity|]. split; reflexivity. }
  destruct (py_truthy is_vegetarian && str_truthy (vegetarian_icon_path g)
            && fs (vegetarian_icon_path g)).
  { eexists. split; [reflexivity|]. split; reflexivity. }
  eexists. split; [reflexivity|]. split; reflexivity.
Qed.

Lemma initialised_init fname : initialised (init fname).
Proof. by split. Qed.

Lemma initialised_truthy g :
  initialised g ->
  str_truthy (vegan_icon_path g) = true
  /\ str_truthy (vegetarian_icon_path g) = true
  /\ vegan_icon_path g <> vegetarian_icon_path g.
Proof. intros [-> ->]. by repeat split. Qed.

(** C4. When the icon file of every flag that is set is absent,
    [add_menu_item] still returns and appends the item block, whose first
    cell is the bare name paragraph: no image is put before the name. *)
Theorem missing_icon_gives_name_only
    fs name description price is_vegan is_vegetarian g :
  (py_truthy is_vegan = true -> fs (vegan_icon_path g) = false) ->
  (py_truthy is_vegetarian = true -> fs (vegetarian_icon_path g) = false) ->
  exists b,
    add_menu_item fs name description price is_vegan is_vegetarian g
      = (set_story (story g ++ [b; Spacer (Num 1) (Inches 0.01)]) g, Returns tt)
    /\ kind_of b = KItem None (bold name) (bold price) description
    /\ images b = [].
Proof.
  intros Hvegan Hvegetarian.
  destruct (add_menu_item_block fs name description price is_vegan is_vegetarian g)
    as (b & Hrun & Hkind & Himg).
  assert (chosen_icon fs g is_vegan is_vegetarian = None) as Hnone.
  { unfold chosen_icon.
    destruct (py_truthy is_vegan); [rewrite Hvegan by done|];
      destruct (py_truthy is_vegetarian); [rewrite Hvegetarian by done| |
        rewrite Hvegetarian by done|]; simpl;
      by rewrite ?andb_false_r. }
  rewrite Hnone in Hkind, Himg. by exists b.
Qed.

Lemma missing_icon_gives_name_only_witness :
  exists b,
    add_menu_item (fun _ => false) (VStr "Hummus") (VStr "Chickpea puree")
      (VStr "7,50€") (VBool true) (VBool false) (init "east_west_menu.pdf")
      = (set_story (story (init "east_west_menu.pdf")
                    ++ [b; Spacer (Num 1) (Inches 0.01)])
           (init "east_west_menu.pdf"), Returns tt)
    /\ kind_of b
        = KItem None (bold (VStr "Hummus")) (bold (VStr "7,50€")) (VStr "Chickpea puree")
    /\ images b = [].
Proof.
  apply (missing_icon_gives_name_only (fun _ => false)); intros _; reflexivity.
Defined.

(** C10. With both flags set, the vegan icon file absent and the
    vegetarian icon file present, the item block shows the vegetarian
    icon before the name: the second branch is taken. *)
Theorem vegetarian_icon_when_vegan_file_absent
    fs name description price is_vegan is_vegetarian g :
  initialised g ->
  py_truthy is_vegan = true ->
  py_truthy is_vegetarian = true ->
  fs (vegan_icon_path g) = false ->
  fs (vegetarian_icon_path g) = true ->
  exists b,
    add_menu_item fs name description price is_vegan is_vegetarian g
      = (set_story (story g ++ [b; Spacer (Num 1) (Inches 0.01)]) g, Returns tt)
    /\ kind_of b
        = KItem (Some (vegetarian_icon_path g)) (bold name) (bold price) description
    /\ images b = [vegetarian_icon_path g].
Proof.
  intros Hinit Hvegan Hvegetarian Habsent Hpresent.
  destruct (initialised_truthy g Hinit) as (_ & Hpath & _).
  destruct (add_menu_item_block fs name description price is_vegan is_vegetarian g)
    as (b & Hrun & Hkind & Himg).
  assert (chosen_icon fs g is_vegan is_vegetarian = Some (vegetarian_icon_path g))
    as Hicon.
  { unfold chosen_icon.
    by rewrite Hvegan, Hvegetarian, Habsent, Hpresent, Hpath, andb_false_r. }
  rewrite Hicon in Hkind, Himg. by exists b.
Qed.

Lemma vegetarian_icon_when_vegan_file_absent_witness :
  exists b,
    add_menu_item
      (fun p => String.eqb p "C:\Users\mbike\Downloads\vegetarian-sigle.jpg")
      (VStr "Zahra") (VStr "Cooked cauliflower") (VStr "7,50€")
      (VBool true) (VBool true) (init "east_west_menu.pdf")
      = (set_story (story (init "east_west_menu.pdf")
                    ++ [b; Spacer (Num 1) (Inches 0.01)])
           (init "east_west_menu.pdf"), Returns tt)
    /\ kind_of b
        = KItem (Some (vegetarian_icon_path (init "east_west_menu.pdf")))
            (bold (VStr "Zahra")) (bold (VStr "7,50€")) (VStr "Cooked cauliflower")
    /\ images b = [vegetarian_icon_path (init "east_west_menu.pdf")].
Proof.
  apply (vegetarian_icon_when_vegan_file_absent
           (fun p => String.eqb p "C:\Users\mbike\Downloads\vegetarian-sigle.jpg"));
    [apply initialised_init | reflexivity..].
Defined.

(** C2, as the code has it. For an item flagged vegan whose vegan icon
    file is present, the item block shows the vegan icon before the name
    and no other image, so never the vegetarian icon, whatever the
    vegetarian flag and the vegetarian icon file are. *)
Theorem vegan_icon_when_file_present
    fs name description price is_vegan is_vegetarian g :
  initialised g ->
  py_truthy is_vegan = true ->
  fs (vegan_icon_path g) = true ->
  exists b,
    add_menu_item fs name description price is_vegan is_vegetarian g
      = (set_story (story g ++ [b; Spacer (Num 1) (Inches 0.01)]) g, Returns tt)
    /\ kind_of b
        = KItem (Some (vegan_icon_path g)) (bold name) (bold price) description
    /\ images b = [vegan_icon_path g]
    /\ vegetarian_icon_path g ∉ images b.
Proof.
  intros Hinit Hvegan Hpresent.
  destruct (initialised_truthy g Hinit) as (Hpath & _ & Hne).
  destruct (add_menu_item_block fs name description price is_vegan is_vegetarian g)
    as (b & Hrun & Hkind & Himg).
  assert (chosen_icon fs g is_vegan is_vegetarian = Some (vegan_icon_path g))
    as Hicon.
  { unfold chosen_icon. by rewrite Hvegan, Hpresent, Hpath. }
  rewrite Hicon in Hkind, Himg. exists b. repeat split; try done.
  rewrite Himg. simpl. intros Hin. apply list_elem_of_singleton in Hin. done.
Qed.

Lemma vegan_icon_when_file_present_witness :
  exists b,
    add_menu_item (fun _ => true) (VStr "Hummus") (VStr "Chickpea puree")
      (VStr "7,50€") (VBool true) (VBool true) (init "east_west_menu.pdf")
      = (set_story (story (init "east_west_menu.pdf")
                    ++ [b; Spacer (Num 1) (Inches 0.01)])
           (init "east_west_menu.pdf"), Returns tt)
    /\ kind_of b
        = KItem (Some (vegan_icon_path (init "east_west_menu.pdf")))
            (bold (VStr "Hummus")) (bold (VStr "7,50€")) (VStr "Chickpea puree")
    /\ images b = [vegan_icon_path (init "east_west_menu.pdf")]
    /\ vegetarian_icon_path (init "east_west_menu.pdf") ∉ images b.
Proof.
  apply (vegan_icon_when_file_present (fun _ => true));
    [apply initialised_init | reflexivity..].
Defined.

(** C2, as stated, fails. An item flagged vegan (and vegetarian) whose
    vegan icon file is absent while the vegetarian icon file is present:
    the block shows the vegetarian icon and not the vegan one. *)
Lemma vegan_flag_shows_vegetarian_icon :
  let fs := fun p => String.eqb p "C:\Users\mbike\Downloads\vegetarian-sigle.jpg" in
  let g := exec (add_menu_item fs (VStr "Hummus") (VStr "Chickpea puree")
                   (VStr "7,50€") (VBool true) (VBool true))
             (init "east_west_menu.pdf") in
  py_truthy (VBool true) = true
  /\ map kind_of (story g)
      = [KItem (Some "C:\Users\mbike\Downloads\vegetarian-sigle.jpg")
           (VStr "<b>Hummus</b>") (VStr "<b>7,50€</b>") (VStr "Chickpea puree");
         KSpacer]
  /\ story_images (story g) = ["C:\Users\mbike\Downloads\vegetarian-sigle.jpg"]
  /\ vegan_icon_path (init "east_west_menu.pdf") ∉ story_images (story g).
Proof.
  repeat split.
  intros Hin. vm_compute in Hin. apply list_elem_of_singleton in Hin. done.
Qed.

(** ** [add_cover_page] *)

(** C8. [add_cover_page] returns and appends, in this order: the top
    rule, the logo image when the path is non-empty and exists, the boxed
    title line, the location line, the bottom rule and a page break, with
    spacers between them. The logo and its spacer are the only blocks
    that depend on the path; the page break is last in both cases. *)
Theorem add_cover_page_blocks fs logo g :
  exists delta,
    add_cover_page fs logo g = (set_story (story g ++ delta) g, Returns tt)
    /\ map kind_of delta
        = [KSpacer; KBorder; KSpacer]
          ++ (if str_truthy logo && fs logo then [KImage logo; KSpacer] else [])
          ++ [KBox "Description" (VStr "✦ Authentic Lebanese & Syrian Cuisine ✦");
              KSpacer;
              KParagraph "Location" (VStr "Brussels, Belgium • 2025");
              KSpacer; KBorder; KPageBreak]
    /\ last delta = Some PageBreak
    /\ story_images delta = (if str_truthy logo && fs logo then [logo] else [])
    /\ (fs logo = false -> story_images delta = []).
Proof.
  unfold add_cover_page, mbind, prog_bind, story_append.
  destruct (str_truthy logo && fs logo) eqn:Hlogo; simpl;
    rewrite <- !app_assoc; simpl;
    eexists; (split; [reflexivity|]); repeat split.
  intros Hfs. by rewrite Hfs, andb_false_r in Hlogo.
Qed.

(** ** [add_section] *)

Lemma filter_is_item_spaced ks :
  Forall (fun k => is_item k = true) ks ->
  List.filter is_item (spaced ks) = ks.
Proof.
  induction 1 as [|k ks Hk _ IH]; [done|].
  unfold spaced in *. simpl. rewrite Hk. simpl. by rewrite IH.
Qed.

Lemma filter_is_header_spaced ks :
  Forall (fun k => is_item k = true) ks ->
  List.filter is_header (spaced ks) = [].
Proof.
  induction 1 as [|k ks Hk _ IH]; [done|].
  unfold spaced in *. simpl. rewrite IH. by destruct k.
Qed.

Lemma item_shown_is_item fs g items ks :
  Forall2 (item_shown fs g) items ks -> Forall (fun k => is_item k = true) ks.
Proof.
  induction 1 as [|it k items ks (n & d & p & _ & ->) _ IH]; by constructor.
Qed.

(** The loop of [add_section] over items that have their three strings. *)
Lemma add_section_loop fs g items :
  Forall (fun item => exists n d p, item_strings item n d p) items ->
  forall l, exists blocks ks,
    for_each items (fun item =>
      name ← lift (dict_getitem item "name") ;
      description ← lift (dict_getitem item "description") ;
      price ← lift (dict_getitem item "price") ;
      add_menu_item fs name description price
        (dict_get item "is_vegan" (VBool false))
        (dict_get item "is_vegetarian" (VBool false))) (set_story l g)
      = (set_story (l ++ blocks) g, Returns tt)
    /\ map kind_of blocks = spaced ks
    /\ Forall2 (item_shown fs g) items ks.
Proof.
  induction 1 as [|item items (n & d & p & Hn & Hd & Hp) _ IH]; intros l.
  - exists [], []. simpl. rewrite app_nil_r. by repeat split.
  - destruct (add_menu_item_block fs (VStr n) (VStr d) (VStr p)
                (dict_get item "is_vegan" (VBool false))
                (dict_get item "is_vegetarian" (VBool false)) (set_story l g))
      as (b & Hrun & Hkind & _).
    destruct (IH (l ++ [b; Spacer (Num 1) (Inches 0.01)])) as (blocks & ks & Hloop & Hks & Hall).
    exists ([b; Spacer (Num 1) (Inches 0.01)] ++ blocks),
      (kind_of b :: ks).
    split; [|split].
    + simpl for_each. unfold mbind at 1, prog_bind at 1.
      unfold mbind at 1, prog_bind at 1, lift at 1, dict_getitem at 1. rewrite Hn.
      unfold mbind at 1, prog_bind at 1, lift at 1, dict_getitem at 1. rewrite Hd.
      unfold mbind at 1, prog_bind at 1, lift at 1, dict_getitem at 1. rewrite Hp.
      rewrite Hrun. simpl story. change (set_story ?a (set_story ?b g)) with (set_story a g).
      rewrite Hloop. by rewrite <- app_assoc.
    + simpl. by rewrite Hks.
    + constructor; [|done]. exists n, d, p. split; [done|]. by rewrite Hkind.
Qed.

(** C1. On a list of items that carry their name, description and price
    strings, [add_section] returns and appends: a rule, one header
    showing the title in upper case, a rule, a spacer, then for each item
    in input order its item block and a spacer, then a spacer. The header
    is the only header block, the item blocks are as many as the items,
    and each shows its name and price between bold tags and its
    description as given. *)
Theorem add_section_blocks fs up title items g :
  Forall (fun item => exists n d p, item_strings item n d p) items ->
  exists delta ks,
    add_section fs up title items g = (set_story (story g ++ delta) g, Returns tt)
    /\ map kind_of delta
        = [KBorder; KHeader (up title); KBorder; KSpacer] ++ spaced ks ++ [KSpacer]
    /\ Forall2 (item_shown fs g) items ks
    /\ List.filter is_header (map kind_of delta) = [KHeader (up title)]
    /\ List.filter is_item (map kind_of delta) = ks
    /\ length ks = length items.
Proof.
  intros Hitems.
  destruct (add_section_loop fs g items Hitems
              (story g ++ [Table [[CStr ""]] [Inches 7.2]
                   [TCmd "LINEABOVE" (0, 0)%Z (-1, 0)%Z [TNum 1; TColor (HexColor "#d4af37")]]
                   None;
                 Table [[CFlow (Paragraph (VStr (up title)) section_style)]] [Inches 7.2]
                   [TCmd "BACKGROUND" (0, 0)%Z (-1, -1)%Z [TColor (HexColor "#1a5d3f")];
                    TCmd "BOX" (0, 0)%Z (-1, -1)%Z [TNum 1; TColor (HexColor "#d4af37")];
                    TCmd "TOPPADDING" (0, 0)%Z (-1, -1)%Z [TNum 3];
                    TCmd "BOTTOMPADDING" (0, 0)%Z (-1, -1)%Z [TNum 3];
                    TCmd "LEFTPADDING" (0, 0)%Z (-1, -1)%Z [TNum 5];
                    TCmd "RIGHTPADDING" (0, 0)%Z (-1, -1)%Z [TNum 5]]
                   None;
                 Table [[CStr ""]] [Inches 7.2]
                   [TCmd "LINEBELOW" (0, 0)%Z (-1, 0)%Z [TNum 1; TColor (HexColor "#d4af37")]]
                   None;
                 Spacer (Num 1) (Inches 0.02)]))
    as (blocks & ks & Hloop & Hks & Hall).
  pose proof (item_shown_is_item _ _ _ _ Hall) as Hitem.
  eexists _, ks. split; [|split; [|split; [done|split; [|split]]]].
  - unfold add_section.
    unfold mbind at 1, prog_bind at 1, story_append at 1.
    unfold mbind at 1, prog_bind at 1, story_append at 1.
    unfold mbind at 1, prog_bind at 1, story_append at 1.
    unfold mbind at 1, prog_bind at 1, story_append at 1.
    simpl story. change (set_story ?a (set_story ?b g)) with (set_story a g).
    rewrite <- !app_assoc. simpl app.
    etransitivity; [apply (bind_returns _ _ _ _ _ Hloop)|].
    unfold story_append. simpl story.
    change (set_story ?a (set_story ?b g)) with (set_story a g).
    rewrite <- !app_assoc. reflexivity.
  - rewrite !map_app, Hks. reflexivity.
  - rewrite !map_app, Hks. simpl.
    rewrite List.filter_app, filter_is_header_spaced by done. reflexivity.
  - rewrite !map_app, Hks. simpl.
    rewrite List.filter_app, filter_is_item_spaced by done. simpl. by rewrite app_nil_r.
  - symmetry. by eapply Forall2_length.
Qed.

Lemma add_section_blocks_witness :
  exists delta ks,
    add_section (fun _ => true) ascii_upper "Cold Mezzes"
      [dict_literal [("name", VStr "Hummus"); ("description", VStr "Chickpea puree");
                     ("price", VStr "7,50€"); ("is_vegan", VBool true)]]
      (init "east_west_menu.pdf")
      = (set_story (story (init "east_west_menu.pdf") ++ delta)
           (init "east_west_menu.pdf"), Returns tt)
    /\ map kind_of delta
        = [KBorder; KHeader (ascii_upper "Cold Mezzes"); KBorder; KSpacer]
          ++ spaced ks ++ [KSpacer]
    /\ Forall2 (item_shown (fun _ => true) (init "east_west_menu.pdf"))
         [dict_literal [("name", VStr "Hummus"); ("description", VStr "Chickpea puree");
                        ("price", VStr "7,50€"); ("is_vegan", VBool true)]] ks
    /\ List.filter is_header (map kind_of delta) = [KHeader (ascii_upper "Cold Mezzes")]
    /\ List.filter is_item (map kind_of delta) = ks
    /\ length ks = 1.
Proof.
  apply (add_section_blocks (fun _ => true) ascii_upper "Cold Mezzes").
  constructor; [|constructor].
  exists "Hummus", "Chickpea puree", "7,50€". repeat split; reflexivity.
Defined.

(** The scenario of the specification, run: one section "Cold Mezzes"
    with the vegan item Hummus, all asset files present. *)
Example cold_mezzes_hummus :
  map kind_of
    (story (exec
      (add_section (fun _ => true) ascii_upper "Cold Mezzes"
         [dict_literal [("name", VStr "Hummus"); ("description", VStr "Chickpea puree");
                        ("price", VStr "7,50€"); ("is_vegan", VBool true)]])
      (init "east_west_menu.pdf")))
  = [KBorder; KHeader "COLD MEZZES"; KBorder; KSpacer;
     KItem (Some "C:\Users\mbike\Downloads\vegan-sigle.jpg")
       (VStr "<b>Hummus</b>") (VStr "<b>7,50€</b>") (VStr "Chickpea puree");
     KSpacer; KSpacer].
Proof. vm_compute. reflexivity. Qed.

(** An item without its name: [item['name']] raises [KeyError] after the
    header blocks were appended. *)
Example section_item_without_name :
  let r := add_section (fun _ => true) ascii_upper "Dishes"
             [dict_literal [("description", VStr "Beef skewers"); ("price", VStr "10€")]]
             (init "east_west_menu.pdf") in
  r.2 = Raises (KeyError "name")
  /\ map kind_of (story r.1) = [KBorder; KHeader "DISHES"; KBorder; KSpacer].
Proof. vm_compute. split; reflexivity. Qed.

(** ** Sequences of calls *)

Lemma do_call_blocks fs up c g :
  exists r, do_call fs up c g = (set_story (story g ++ blocks_of fs up c g) g, r).
Proof.
  destruct (appender_do_call fs up c g) as (d & r & E). exists r.
  unfold blocks_of, exec. rewrite (E []). simpl.
  rewrite <- (E (story g)). by rewrite set_story_id.
Qed.

(** C5. Whatever the calls and their order, the story after the sequence
    is the story before it followed by the blocks of each call entered,
    in call order; the blocks of a call do not depend on what was
    appended before it; nothing else of the generator changes. Every call
    is entered unless an earlier one raised. *)
Theorem run_appends_in_call_order fs up calls g :
  exists r,
    run fs up calls g
      = (set_story
           (story g
            ++ concat (map (fun c => blocks_of fs up c g)
                         (take (entered fs up calls g) calls))) g, r)
    /\ match r with
       | Returns _ => entered fs up calls g = length calls
       | Raises _ => entered fs up calls g <= length calls
       end.
Proof.
  revert g. induction calls as [|c calls IH]; intros g.
  - exists (Returns tt). simpl. by rewrite app_nil_r, set_story_id.
  - destruct (do_call_blocks fs up c g) as (r & E).
    unfold run in *. simpl for_each. simpl entered. destruct r as [[]|e].
    + rewrite (bind_returns _ _ _ _ _ E), E.
      destruct (IH (set_story (story g ++ blocks_of fs up c g) g)) as (r & Hrun & Hn).
      exists r. rewrite Hrun. simpl. split.
      * by rewrite <- app_assoc.
      * destruct r; lia.
    + rewrite (bind_raises _ _ _ _ _ E), E.
      exists (Raises e). simpl. rewrite app_nil_r. split; [done|lia].
Qed.

(** ** The document depends on the file system through three paths *)

(** Two programs that agree on every generator like [g0] stay in
    agreement when each is followed by continuations that agree. *)
Lemma seq_ext {A B} (m1 m2 : M A) (k1 k2 : A -> M B) g0 l :
  appender m1 ->
  (forall l', m1 (set_story l' g0) = m2 (set_story l' g0)) ->
  (forall a l', k1 a (set_story l' g0) = k2 a (set_story l' g0)) ->
  (m1 ≫= k1) (set_story l g0) = (m2 ≫= k2) (set_story l g0).
Proof.
  intros Hm Hext Hk. unfold mbind, prog_bind. rewrite <- Hext.
  destruct (Hm g0) as (d & r & E). rewrite E. destruct r; [apply Hk | done].
Qed.

Lemma add_menu_item_ext fs1 fs2 name description price is_vegan is_vegetarian g :
  fs1 (vegan_icon_path g) = fs2 (vegan_icon_path g) ->
  fs1 (vegetarian_icon_path g) = fs2 (vegetarian_icon_path g) ->
  add_menu_item fs1 name description price is_vegan is_vegetarian g
  = add_menu_item fs2 name description price is_vegan is_vegetarian g.
Proof.
  intros Hvegan Hvegetarian.
  unfold add_menu_item, mbind, prog_bind, self. by rewrite Hvegan, Hvegetarian.
Qed.

Lemma add_cover_page_ext fs1 fs2 logo g :
  fs1 logo = fs2 logo -> add_cover_page fs1 logo g = add_cover_page fs2 logo g.
Proof. intros H. unfold add_cover_page. by rewrite H. Qed.

Lemma add_contact_page_ext fs1 fs2 logo g :
  fs1 logo = fs2 logo -> add_contact_page fs1 logo g = add_contact_page fs2 logo g.
Proof. intros H. unfold add_contact_page. by rewrite H. Qed.

Lemma add_section_ext fs1 fs2 up title items g0 l :
  fs1 (vegan_icon_path g0) = fs2 (vegan_icon_path g0) ->
  fs1 (vegetarian_icon_path g0) = fs2 (vegetarian_icon_path g0) ->
  add_section fs1 up title items (set_story l g0)
  = add_section fs2 up title items (set_story l g0).
Proof.
  intros Hvegan Hvegetarian. unfold add_section.
  do 4 (apply seq_ext; [apply appender_story_append | done | intros _ ?]).
  apply seq_ext; [appender_steps | | done].
  induction items as [|item items IH]; intros l1; [done|].
  simpl for_each. apply seq_ext; [appender_steps | | intros _ ?; apply IH].
  intros l2.
  do 3 (apply seq_ext; [apply appender_lift | done | intros ? ?]).
  by apply add_menu_item_ext.
Qed.

Lemma do_call_ext fs1 fs2 up c g0 l :
  fs1 (vegan_icon_path g0) = fs2 (vegan_icon_path g0) ->
  fs1 (vegetarian_icon_path g0) = fs2 (vegetarian_icon_path g0) ->
  match c with
  | Call_add_cover_page logo | Call_add_contact_page logo => fs1 logo = fs2 logo
  | _ => True
  end ->
  do_call fs1 up c (set_story l g0) = do_call fs2 up c (set_story l g0).
Proof.
  intros Hvegan Hvegetarian Hlogo. destruct c; simpl.
  - by apply add_cover_page_ext.
  - by apply add_menu_item_ext.
  - by apply add_section_ext.
  - done.
  - by apply add_contact_page_ext.
Qed.

(** C7. Two runs of [main] on file systems that agree on the three asset
    paths it refers to (the logo and the two icons) end with the same
    generator, hence the same document tree and the same texts in it,
    the same printed lines and the same outcome. *)
Theorem main_deterministic fs1 fs2 up doc_build :
  fs1 logo_path = fs2 logo_path ->
  fs1 (vegan_icon_path (init "east_west_menu.pdf"))
  = fs2 (vegan_icon_path (init "east_west_menu.pdf")) ->
  fs1 (vegetarian_icon_path (init "east_west_menu.pdf"))
  = fs2 (vegetarian_icon_path (init "east_west_menu.pdf")) ->
  main fs1 up doc_build = main fs2 up doc_build
  /\ story_texts (story (main fs1 up doc_build).1.1)
     = story_texts (story (main fs2 up doc_build).1.1).
Proof.
  intros Hlogo Hvegan Hvegetarian.
  assert (main_calls fs1 up doc_build (init "east_west_menu.pdf")
          = main_calls fs2 up doc_build (init "east_west_menu.pdf")) as Hcalls.
  { change (init "east_west_menu.pdf") with (set_story [] (init "east_west_menu.pdf")).
    unfold main_calls.
    pose proof (fun l => add_cover_page_ext fs1 fs2 logo_path l Hlogo) as Hcover.
    pose proof (fun l => add_contact_page_ext fs1 fs2 logo_path l Hlogo) as Hcontact.
    pose proof (fun title items l =>
                  add_section_ext fs1 fs2 up title items _ l Hvegan Hvegetarian)
      as Hsection.
    apply seq_ext; [apply appender_add_cover_page | intros ?; apply Hcover | intros _ ?].
    do 2 (apply seq_ext;
          [apply appender_add_section | intros ?; apply Hsection | intros _ ?]).
    apply seq_ext; [apply appender_add_info_box | reflexivity | intros _ ?].
    do 2 (apply seq_ext;
          [apply appender_add_section | intros ?; apply Hsection | intros _ ?]).
    apply seq_ext; [apply appender_add_info_box | reflexivity | intros _ ?].
    apply seq_ext; [apply appender_add_section | intros ?; apply Hsection | intros _ ?].
    apply seq_ext; [apply appender_add_info_box | reflexivity | intros _ ?].
    do 3 (apply seq_ext;
          [apply appender_add_section | intros ?; apply Hsection | intros _ ?]).
    apply seq_ext; [apply appender_add_contact_page | intros ?; apply Hcontact | intros _ ?].
    reflexivity. }
  assert (main fs1 up doc_build = main fs2 up doc_build) as Hmain.
  { unfold main. rewrite Hcalls. reflexivity. }
  split; [exact Hmain | rewrite Hmain; reflexivity].
Qed.

Lemma main_deterministic_witness :
  main (fun _ => true) ascii_upper (fun _ _ => Returns tt)
  = main (fun p => negb (String.eqb p "menu_editor.html")) ascii_upper
      (fun _ _ => Returns tt)
  /\ story_texts (story (main (fun _ => true) ascii_upper (fun _ _ => Returns tt)).1.1)
     = story_texts
         (story (main (fun p => negb (String.eqb p "menu_editor.html")) ascii_upper
                   (fun _ _ => Returns tt)).1.1).
Proof.
  apply (main_deterministic (fun _ => true)
           (fun p => negb (String.eqb p "menu_editor.html")));
    reflexivity.
Defined.

(** The same for any sequence of calls: two file systems that agree on
    the icons of the generator and on the logo of every cover and contact
    call give the same run. *)
Lemma run_ext fs1 fs2 up calls g0 :
  fs1 (vegan_icon_path g0) = fs2 (vegan_icon_path g0) ->
  fs1 (vegetarian_icon_path g0) = fs2 (vegetarian_icon_path g0) ->
  Forall (fun c =>
            match c with
            | Call_add_cover_page logo | Call_add_contact_page logo =>
                fs1 logo = fs2 logo
            | _ => True
            end) calls ->
  forall l, run fs1 up calls (set_story l g0) = run fs2 up calls (set_story l g0).
Proof.
  intros Hvegan Hvegetarian. unfold run.
  induction 1 as [|c calls Hc _ IH]; intros l; [done|].
  simpl for_each. apply seq_ext.
  - apply appender_do_call.
  - intros l'. by apply do_call_ext.
  - intros _ l'. apply IH.
Qed.

End Builder.

(** ** generate_menu_from_html.py *)

Module HtmlDriver.
Import FromHtml.

Section Facts.

Variable path_exists : string -> bool.
Variable path_join : string -> string -> string.
Variable script_dir : string.
Variables css html : Type.
Variable weasy_CSS : string -> outcome css.
Variable weasy_HTML : string -> outcome html.
Variable weasy_write_pdf : html -> string -> list css -> outcome unit.

Let html_file := path_join script_dir "menu_editor.html".
Let output_pdf := path_join script_dir "east_west_menu_final.pdf".
Let run_generate_pdf :=
  generate_pdf path_exists path_join script_dir css html
    weasy_CSS weasy_HTML weasy_write_pdf.
Let the_rendering :=
  rendering path_join script_dir css html weasy_CSS weasy_HTML weasy_write_pdf.

Lemma prog_bind_returns {S A B} (m : prog S A) (k : A -> prog S B) s s' a :
  m s = (s', Returns a) -> (m ≫= k) s = k a s'.
Proof. intros E. unfold mbind, prog_bind. by rewrite E. Qed.

(** The events of the [try] body up to the call that decides. *)
Lemma try_body_calls tr :
  exists calls,
    Forall (fun ev => is_call ev = true) calls
    /\ forall (k : IO bool),
        ((pdf_css ← CSS css weasy_CSS pdf_css_source ;
          doc ← HTML html weasy_HTML html_file ;
          write_pdf css html weasy_write_pdf html_file doc output_pdf [pdf_css] ;;
          k) tr)
        = match the_rendering with
          | Returns _ => k (tr ++ calls)
          | Raises e => (tr ++ calls, Raises e)
          end.
Proof.
  unfold the_rendering, rendering, CSS, HTML, write_pdf, emit, lift,
    mbind, prog_bind.
  fold html_file. fold output_pdf.
  destruct (weasy_CSS pdf_css_source) as [c|e].
  2:{ exists [Call_CSS pdf_css_source]. split; [by repeat constructor | done]. }
  destruct (weasy_HTML html_file) as [d|e].
  2:{ exists [Call_CSS pdf_css_source; Call_HTML html_file].
      split; [by repeat constructor | intros k; by rewrite <- app_assoc]. }
  exists [Call_CSS pdf_css_source; Call_HTML html_file;
          Call_write_pdf html_file output_pdf].
  split; [by repeat constructor|]. intros k.
  rewrite <- !app_assoc. simpl.
  by destruct (weasy_write_pdf d output_pdf [c]) as [[]|e].
Qed.

(** C3. When the HTML file does not exist, [generate_pdf] returns [False]
    (it does not raise), prints one line that names the missing path, and
    does nothing else: no call into weasyprint, so no file written. *)
Theorem generate_pdf_missing_input tr :
  path_exists html_file = false ->
  run_generate_pdf tr
  = (tr ++ [Print ("Error: HTML file not found at " +:+ html_file)], Returns false).
Proof.
  intros Hmissing. unfold run_generate_pdf, generate_pdf.
  fold html_file. by rewrite Hmissing.
Qed.

(** C6. When the HTML file exists and a call into weasyprint raises an
    instance of [Exception], [generate_pdf] returns [False]: after the two
    progress lines and the calls made so far, the last thing it does is
    print the line carrying the text of the exception. *)
Theorem generate_pdf_renderer_raises tr e :
  path_exists html_file = true ->
  the_rendering = Raises e ->
  is_Exception e = true ->
  exists calls,
    Forall (fun ev => is_call ev = true) calls
    /\ run_generate_pdf tr
       = (tr ++ [Print ("Reading HTML from: " +:+ html_file);
                 Print "Generating PDF..."]
             ++ calls
             ++ [Print ("Error generating PDF: " +:+ exc_text e)],
          Returns false).
Proof.
  intros Hexists Hraises Hclass.
  destruct (try_body_calls
              ((tr ++ [Print ("Reading HTML from: " +:+ html_file)])
               ++ [Print "Generating PDF..."]))
    as (calls & Hcalls & Hbody).
  exists calls. split; [done|].
  unfold run_generate_pdf, generate_pdf. fold html_file. fold output_pdf.
  rewrite Hexists. simpl (negb true). cbv iota.
  do 2 (erewrite prog_bind_returns; [|reflexivity]).
  unfold try_except_Exception. rewrite Hbody, Hraises, Hclass.
  erewrite prog_bind_returns; [|reflexivity].
  unfold mret, prog_ret. by rewrite <- !app_assoc.
Qed.

(** An object that is not an instance of [Exception] is not caught: it
    leaves [generate_pdf], and no error line is printed. *)
Lemma generate_pdf_base_exception_propagates tr e :
  path_exists html_file = true ->
  the_rendering = Raises e ->
  is_Exception e = false ->
  exists calls,
    Forall (fun ev => is_call ev = true) calls
    /\ run_generate_pdf tr
       = (tr ++ [Print ("Reading HTML from: " +:+ html_file);
                 Print "Generating PDF..."]
             ++ calls,
          Raises e).
Proof.
  intros Hexists Hraises Hclass.
  destruct (try_body_calls
              ((tr ++ [Print ("Reading HTML from: " +:+ html_file)])
               ++ [Print "Generating PDF..."]))
    as (calls & Hcalls & Hbody).
  exists calls. split; [done|].
  unfold run_generate_pdf, generate_pdf. fold html_file. fold output_pdf.
  rewrite Hexists. simpl (negb true). cbv iota.
  do 2 (erewrite prog_bind_returns; [|reflexivity]).
  unfold try_except_Exception. rewrite Hbody, Hraises, Hclass.
  by rewrite <- !app_assoc.
Qed.

(** When every call into weasyprint returns, [generate_pdf] returns
    [True] after the three calls and the two closing lines. *)
Lemma generate_pdf_success tr :
  path_exists html_file = true ->
  the_rendering = Returns tt ->
  run_generate_pdf tr
  = (tr ++ [Print ("Reading HTML from: " +:+ html_file);
            Print "Generating PDF...";
            Call_CSS pdf_css_source; Call_HTML html_file;
            Call_write_pdf html_file output_pdf;
            Print "✓ PDF generated successfully!";
            Print ("✓ Saved to: " +:+ output_pdf)],
     Returns true).
Proof.
  intros Hexists Hok.
  unfold run_generate_pdf, generate_pdf. fold html_file. fold output_pdf.
  rewrite Hexists. simpl (negb true). cbv iota.
  unfold the_rendering, rendering in Hok. fold html_file in Hok. fold output_pdf in Hok.
  unfold print, emit, try_except_Exception, CSS, HTML, write_pdf, emit, lift,
    mbind, prog_bind, mret, prog_ret.
  destruct (weasy_CSS pdf_css_source) as [c|]; [|done].
  destruct (weasy_HTML html_file) as [d|]; [|done].
  rewrite Hok. by rewrite <- !app_assoc.
Qed.

(** C9. When [generate_pdf] returns, the script exits with code 0 if it
    returned [True] and with code 1 if it returned [False]. *)
Theorem script_exit_code tr success :
  run_generate_pdf [] = (tr, Returns success) ->
  script path_exists path_join script_dir css html
    weasy_CSS weasy_HTML weasy_write_pdf
  = (tr, Exit (if success then 0 else 1)%Z).
Proof.
  intros Hrun. unfold script. fold run_generate_pdf. by rewrite Hrun.
Qed.

End Facts.

Lemma generate_pdf_missing_input_witness :
  generate_pdf (fun _ => false) (fun d f => d +:+ "/" +:+ f) "/srv/menu"
    string string (fun src => Returns src) (fun f => Returns f)
    (fun _ _ _ => Returns tt) []
  = ([] ++ [Print ("Error: HTML file not found at "
                   +:+ ("/srv/menu" +:+ "/" +:+ "menu_editor.html"))],
     Returns false).
Proof.
  apply (generate_pdf_missing_input (fun _ => false) (fun d f => d +:+ "/" +:+ f)
           "/srv/menu" string string (fun src => Returns src) (fun f => Returns f)
           (fun _ _ _ => Returns tt) []).
  reflexivity.
Defined.

Lemma generate_pdf_renderer_raises_witness :
  exists calls,
    Forall (fun ev => is_call ev = true) calls
    /\ generate_pdf (fun _ => true) (fun d f => d +:+ "/" +:+ f) "/srv/menu"
         string string (fun src => Returns src) (fun f => Returns f)
         (fun _ _ _ => Raises (ExceptionInstance "OSError" "No space left on device")) []
       = ([] ++ [Print ("Reading HTML from: "
                        +:+ ("/srv/menu" +:+ "/" +:+ "menu_editor.html"));
                 Print "Generating PDF..."]
             ++ calls
             ++ [Print ("Error generating PDF: "
                        +:+ exc_text (ExceptionInstance "OSError"
                                        "No space left on device"))],
          Returns false).
Proof.
  apply (generate_pdf_renderer_raises (fun _ => true) (fun d f => d +:+ "/" +:+ f)
           "/srv/menu" string string (fun src => Returns src) (fun f => Returns f)
           (fun _ _ _ => Raises (ExceptionInstance "OSError" "No space left on device"))
           []);
    reflexivity.
Defined.

Lemma script_exit_code_witness :
  script (fun _ => false) (fun d f => d +:+ "/" +:+ f) "/srv/menu"
    string string (fun src => Returns src) (fun f => Returns f)
    (fun _ _ _ => Returns tt)
  = ([Print "Error: HTML file not found at /srv/menu/menu_editor.html"], Exit 1)
  /\ script (fun _ => true) (fun d f => d +:+ "/" +:+ f) "/srv/menu"
       string string (fun src => Returns src) (fun f => Returns f)
       (fun _ _ _ => Returns tt)
     = ([Print "Reading HTML from: /srv/menu/menu_editor.html";
         Print "Generating PDF...";
         Call_CSS pdf_css_source;
         Call_HTML "/srv/menu/menu_editor.html";
         Call_write_pdf "/srv/menu/menu_editor.html"
           "/srv/menu/east_west_menu_final.pdf";
         Print "✓ PDF generated successfully!";
         Print "✓ Saved to: /srv/menu/east_west_menu_final.pdf"], Exit 0).
Proof.
  split.
  - apply (script_exit_code (fun _ => false) (fun d f => d +:+ "/" +:+ f) "/srv/menu"
             string string (fun src => Returns src) (fun f => Returns f)
             (fun _ _ _ => Returns tt) _ false).
    reflexivity.
  - apply (script_exit_code (fun _ => true) (fun d f => d +:+ "/" +:+ f) "/srv/menu"
             string string (fun src => Returns src) (fun f => Returns f)
             (fun _ _ _ => Returns tt) _ true).
    reflexivity.
Defined.

End HtmlDriver.

(** * Further properties of the builder *)

Module BuilderMore.
Import Menu Doc Builder.

(** ** Icons *)

Lemma chosen_icon_sound fs g is_vegan is_vegetarian p :
  chosen_icon fs g is_vegan is_vegetarian = Some p ->
  fs p = true
  /\ ((p = vegan_icon_path g /\ py_truthy is_vegan = true)
      \/ (p = vegetarian_icon_path g /\ py_truthy is_vegetarian = true)).
Proof.
  unfold chosen_icon.
  destruct (py_truthy is_vegan) eqn:Hv, (str_truthy (vegan_icon_path g)),
    (fs (vegan_icon_path g)) eqn:Hf; simpl;
    try (intros [= <-]; by auto);
    destruct (py_truthy is_vegetarian) eqn:Hw,
      (str_truthy (vegetarian_icon_path g)),
      (fs (vegetarian_icon_path g)) eqn:Hg; simpl;
    try (intros [= <-]; by auto); done.
Qed.

(** X1. Whatever the flags and the files, the item block holds at most
    one image, and an image is there only for a flag that is set and
    whose icon file exists: the path shown is the vegan or the vegetarian
    icon path of the generator. *)
Theorem add_menu_item_icon_rule fs name description price is_vegan is_vegetarian g :
  exists b,
    add_menu_item fs name description price is_vegan is_vegetarian g
      = (set_story (story g ++ [b; Spacer (Num 1) (Inches 0.01)]) g, Returns tt)
    /\ length (images b) <= 1
    /\ forall p, p ∈ images b ->
         fs p = true
         /\ ((p = vegan_icon_path g /\ py_truthy is_vegan = true)
             \/ (p = vegetarian_icon_path g /\ py_truthy is_vegetarian = true)).
Proof.
  destruct (add_menu_item_block fs name description price is_vegan is_vegetarian g)
    as (b & Hrun & _ & Himg).
  exists b. split; [done|]. rewrite Himg.
  destruct (chosen_icon fs g is_vegan is_vegetarian) as [q|] eqn:Hicon; simpl.
  - split; [lia|]. intros p Hp. apply list_elem_of_singleton in Hp as ->.
    by apply chosen_icon_sound.
  - split; [lia|]. intros p Hp. by apply elem_of_nil in Hp.
Qed.

(** X2. An item flagged vegetarian and not vegan shows the vegetarian
    icon when that file exists, whether or not the vegan icon file
    exists. *)
Theorem vegetarian_only_item_shows_vegetarian_icon
    fs name description price is_vegan is_vegetarian g :
  initialised g ->
  py_truthy is_vegan = false ->
  py_truthy is_vegetarian = true ->
  fs (vegetarian_icon_path g) = true ->
  exists b,
    add_menu_item fs name description price is_vegan is_vegetarian g
      = (set_story (story g ++ [b; Spacer (Num 1) (Inches 0.01)]) g, Returns tt)
    /\ kind_of b
        = KItem (Some (vegetarian_icon_path g)) (bold name) (bold price) description
    /\ images b = [vegetarian_icon_path g].
Proof.
  intros Hinit Hvegan Hvegetarian Hpresent.
  destruct (initialised_truthy g Hinit) as (_ & Hpath & _).
  destruct (add_menu_item_block fs name description price is_vegan is_vegetarian g)
    as (b & Hrun & Hkind & Himg).
  assert (chosen_icon fs g is_vegan is_vegetarian = Some (vegetarian_icon_path g))
    as Hicon.
  { unfold chosen_icon. by rewrite Hvegan, Hvegetarian, Hpresent, Hpath. }
  rewrite Hicon in Hkind, Himg. by exists b.
Qed.

Lemma vegetarian_only_item_shows_vegetarian_icon_witness :
  exists b,
    add_menu_item (fun _ => true) (VStr "Zahra") (VStr "Cooked cauliflower")
      (VStr "7,50€") (VBool false) (VBool true) (init "east_west_menu.pdf")
      = (set_story (story (init "east_west_menu.pdf")
                    ++ [b; Spacer (Num 1) (Inches 0.01)])
           (init "east_west_menu.pdf"), Returns tt)
    /\ kind_of b
        = KItem (Some (vegetarian_icon_path (init "east_west_menu.pdf")))
            (bold (VStr "Zahra")) (bold (VStr "7,50€")) (VStr "Cooked cauliflower")
    /\ images b = [vegetarian_icon_path (init "east_west_menu.pdf")].
Proof.
  apply (vegetarian_only_item_shows_vegetarian_icon (fun _ => true));
    [apply initialised_init | reflexivity..].
Defined.

(** ** [add_contact_page] *)

(** X3. [add_contact_page] always returns. It appends a page break
    first, then the title box, the contact details box, the button box
    and the closing line with spacers between them, and last the footer
    logo exactly when the path is non-empty and exists; a missing logo
    changes nothing else. *)
Theorem add_contact_page_blocks fs logo g :
  exists delta,
    add_contact_page fs logo g = (set_story (story g ++ delta) g, Returns tt)
    /\ map kind_of delta
        = [KPageBreak; KSpacer;
           KBox "ContactTitle" (VStr "Visit Us"); KSpacer;
           KBox "ContactDetails" (VStr contact_info); KSpacer;
           KBox "Button" (VStr "BOOK A TABLE"); KSpacer;
           KParagraph "FooterMsg" (VStr "<i>We look forward to serving you!</i>");
           KSpacer]
          ++ (if str_truthy logo && fs logo then [KImage logo] else [])
    /\ story_images delta = (if str_truthy logo && fs logo then [logo] else [])
    /\ (fs logo = false -> story_images delta = []).
Proof.
  unfold add_contact_page, mbind, prog_bind, story_append.
  destruct (str_truthy logo && fs logo) eqn:Hlogo;
    cbn -[contact_info app]; rewrite <- ?app_assoc;
    eexists; (split; [reflexivity|]); repeat split.
  intros Hfs. by rewrite Hfs, andb_false_r in Hlogo.
Qed.

(** ** [add_section]: items with and without their keys *)

(** The body of the loop of [add_section]. *)
Local Abbreviation section_body fs :=
  (fun item : gmap string pyval =>
     name ← lift (dict_getitem item "name") ;
     description ← lift (dict_getitem item "description") ;
     price ← lift (dict_getitem item "price") ;
     add_menu_item fs name description price
       (dict_get item "is_vegan" (VBool false))
       (dict_get item "is_vegetarian" (VBool false))).

Lemma section_body_complete fs up item g l :
  first_missing item = None ->
  section_body fs item (set_story l g)
  = (set_story (l ++ blocks_of fs up (item_call item) g) g, Returns tt).
Proof.
  unfold first_missing, blocks_of, item_call, exec, do_call, dict_get.
  destruct (item !! "name") as [n|] eqn:Hn; [|done].
  destruct (item !! "description") as [d|] eqn:Hd; [|done].
  destruct (item !! "price") as [p|] eqn:Hp; [|done]. intros _.
  unfold mbind at 1, prog_bind at 1, lift at 1, dict_getitem at 1. rewrite Hn.
  unfold mbind at 1, prog_bind at 1, lift at 1, dict_getitem at 1. rewrite Hd.
  unfold mbind at 1, prog_bind at 1, lift at 1, dict_getitem at 1. rewrite Hp.
  destruct (add_menu_item_block fs n d p
              (match item !! "is_vegan" with Some v => v | None => VBool false end)
              (match item !! "is_vegetarian" with Some v => v | None => VBool false end)
              (set_story [] g)) as (b & Hrun & _).
  destruct (appender_add_menu_item fs n d p
              (match item !! "is_vegan" with Some v => v | None => VBool false end)
              (match item !! "is_vegetarian" with Some v => v | None => VBool false end)
              g) as (delta & r & E).
  rewrite (E []) in Hrun. injection Hrun as Hdelta Hr. subst r.
  by rewrite (E l), (E []).
Qed.

Lemma section_body_missing fs item k g l :
  first_missing item = Some k ->
  section_body fs item (set_story l g) = (set_story l g, Raises (KeyError k)).
Proof.
  unfold first_missing.
  destruct (item !! "name") as [n|] eqn:Hn.
  2:{ intros [= <-]. unfold mbind, prog_bind, lift, dict_getitem. by rewrite Hn. }
  destruct (item !! "description") as [d|] eqn:Hd.
  2:{ intros [= <-]. unfold mbind, prog_bind, lift, dict_getitem. by rewrite Hn, Hd. }
  destruct (item !! "price") as [p|] eqn:Hp; [done|].
  intros [= <-]. unfold mbind, prog_bind, lift, dict_getitem. by rewrite Hn, Hd, Hp.
Qed.

Lemma section_loop_complete fs up items g :
  Forall (fun item => first_missing item = None) items ->
  forall l,
    for_each items (section_body fs) (set_story l g)
    = (set_story (l ++ concat (map (fun item => blocks_of fs up (item_call item) g) items)) g,
       Returns tt).
Proof.
  induction 1 as [|item items Hitem _ IH]; intros l; simpl.
  - by rewrite app_nil_r.
  - rewrite (bind_returns _ _ _ _ _ (section_body_complete fs up item g l Hitem)).
    rewrite IH. by rewrite <- app_assoc.
Qed.

Lemma section_loop_missing fs up good bad rest k g :
  Forall (fun item => first_missing item = None) good ->
  first_missing bad = Some k ->
  forall l,
    for_each (good ++ bad :: rest) (section_body fs) (set_story l g)
    = (set_story (l ++ concat (map (fun item => blocks_of fs up (item_call item) g) good)) g,
       Raises (KeyError k)).
Proof.
  intros Hgood Hbad. induction Hgood as [|item good Hitem _ IH]; intros l; simpl.
  - rewrite (bind_raises _ _ _ _ _ (section_body_missing fs bad k g l Hbad)).
    by rewrite app_nil_r.
  - rewrite (bind_returns _ _ _ _ _ (section_body_complete fs up item g l Hitem)).
    rewrite IH. by rewrite <- app_assoc.
Qed.

(** The blocks [add_section] appends before its loop. *)
Local Abbreviation section_head fs up title g :=
  (removelast (blocks_of fs up (Call_add_section title []) g)).

Lemma section_head_kinds fs up title g :
  blocks_of fs up (Call_add_section title []) g
    = section_head fs up title g ++ [Spacer (Num 1) (Inches 0.03)]
  /\ map kind_of (section_head fs up title g)
     = [KBorder; KHeader (up title); KBorder; KSpacer].
Proof. split; reflexivity. Qed.

Lemma add_section_complete_run fs up title items g :
  Forall (fun item => first_missing item = None) items ->
  add_section fs up title items g
  = (set_story
       (story g ++ section_head fs up title g
        ++ concat (map (fun item => blocks_of fs up (item_call item) g) items)
        ++ [Spacer (Num 1) (Inches 0.03)]) g,
     Returns tt).
Proof.
  intros Hitems. unfold add_section.
  do 4 (etransitivity; [apply bind_returns; reflexivity|]).
  simpl story. change (set_story ?a (set_story ?b g)) with (set_story a g).
  etransitivity;
    [apply (bind_returns _ _ _ _ _ (section_loop_complete fs up items g Hitems _))|].
  unfold story_append. simpl story.
  change (set_story ?a (set_story ?b g)) with (set_story a g).
  f_equal. f_equal. rewrite <- !app_assoc. reflexivity.
Qed.

Lemma add_section_missing_run fs up title good bad rest k g :
  Forall (fun item => first_missing item = None) good ->
  first_missing bad = Some k ->
  add_section fs up title (good ++ bad :: rest) g
  = (set_story
       (story g ++ section_head fs up title g
        ++ concat (map (fun item => blocks_of fs up (item_call item) g) good)) g,
     Raises (KeyError k)).
Proof.
  intros Hgood Hbad. unfold add_section.
  do 4 (etransitivity; [apply bind_returns; reflexivity|]).
  simpl story. change (set_story ?a (set_story ?b g)) with (set_story a g).
  etransitivity;
    [apply (bind_raises _ _ _ _ _
              (section_loop_missing fs up good bad rest k g Hgood Hbad _))|].
  f_equal. f_equal. rewrite <- !app_assoc. reflexivity.
Qed.

(** X4. For items that have their three keys, whatever the values,
    [add_section] returns, and what it appends is what [add_section] with
    no item appends, with the blocks of one [add_menu_item] call per item
    put in input order before the closing spacer. With no item it appends
    the header blocks and the closing spacer only. *)
Theorem add_section_is_header_then_item_calls fs up title items g :
  Forall (fun item => first_missing item = None) items ->
  exists head,
    blocks_of fs up (Call_add_section title []) g
      = head ++ [Spacer (Num 1) (Inches 0.03)]
    /\ map kind_of head = [KBorder; KHeader (up title); KBorder; KSpacer]
    /\ add_section fs up title items g
       = (set_story
            (story g ++ head
             ++ concat (map (fun item => blocks_of fs up (item_call item) g) items)
             ++ [Spacer (Num 1) (Inches 0.03)]) g,
          Returns tt).
Proof.
  intros Hitems. exists (section_head fs up title g).
  destruct (section_head_kinds fs up title g) as [Hhead Hkinds].
  split; [done|]. split; [done|]. by apply add_section_complete_run.
Qed.

Lemma add_section_is_header_then_item_calls_witness :
  exists head,
    blocks_of (fun _ => true) ascii_upper (Call_add_section "Skewers" []) (init "menu.pdf")
      = head ++ [Spacer (Num 1) (Inches 0.03)]
    /\ map kind_of head = [KBorder; KHeader (ascii_upper "Skewers"); KBorder; KSpacer]
    /\ add_section (fun _ => true) ascii_upper "Skewers" skewers (init "menu.pdf")
       = (set_story
            (story (init "menu.pdf") ++ head
             ++ concat (map (fun item =>
                               blocks_of (fun _ => true) ascii_upper (item_call item)
                                 (init "menu.pdf")) skewers)
             ++ [Spacer (Num 1) (Inches 0.03)]) (init "menu.pdf"),
          Returns tt).
Proof.
  apply (add_section_is_header_then_item_calls (fun _ => true) ascii_upper "Skewers").
  repeat constructor.
Defined.

(** X5. When an item lacks one of its keys, [add_section] raises
    [KeyError] for the first key it lacks, in the order name, description,
    price. The header blocks and the blocks of the items before it stay
    in the story; nothing is appended for that item or the items after
    it, and the closing spacer is not appended. *)
Theorem add_section_missing_key fs up title good bad rest k g :
  Forall (fun item => first_missing item = None) good ->
  first_missing bad = Some k ->
  exists head,
    blocks_of fs up (Call_add_section title []) g
      = head ++ [Spacer (Num 1) (Inches 0.03)]
    /\ map kind_of head = [KBorder; KHeader (up title); KBorder; KSpacer]
    /\ add_section fs up title (good ++ bad :: rest) g
       = (set_story
            (story g ++ head
             ++ concat (map (fun item => blocks_of fs up (item_call item) g) good)) g,
          Raises (KeyError k)).
Proof.
  intros Hgood Hbad. exists (section_head fs up title g).
  destruct (section_head_kinds fs up title g) as [Hhead Hkinds].
  split; [done|]. split; [done|]. by apply add_section_missing_run.
Qed.

Lemma add_section_missing_key_witness :
  exists head,
    blocks_of (fun _ => true) ascii_upper (Call_add_section "Skewers" []) (init "menu.pdf")
      = head ++ [Spacer (Num 1) (Inches 0.03)]
    /\ map kind_of head = [KBorder; KHeader (ascii_upper "Skewers"); KBorder; KSpacer]
    /\ add_section (fun _ => true) ascii_upper "Skewers"
         (skewers
          ++ dict_literal [("name", VStr "Kafta"); ("description", VStr "Lamb skewers")]
          :: salads) (init "menu.pdf")
       = (set_story
            (story (init "menu.pdf") ++ head
             ++ concat (map (fun item =>
                               blocks_of (fun _ => true) ascii_upper (item_call item)
                                 (init "menu.pdf")) skewers)) (init "menu.pdf"),
          Raises (KeyError "price")).
Proof.
  apply (add_section_missing_key (fun _ => true) ascii_upper "Skewers").
  - repeat constructor.
  - reflexivity.
Defined.

(** ** Every image of the story refers to a file that was found *)

Lemma story_images_app l1 l2 :
  story_images (l1 ++ l2) = story_images l1 ++ story_images l2.
Proof. unfold story_images. by rewrite map_app, concat_app. Qed.

Lemma story_texts_app l1 l2 :
  story_texts (l1 ++ l2) = story_texts l1 ++ story_texts l2.
Proof. unfold story_texts. by rewrite map_app, concat_app. Qed.

Lemma checked_ret {A} fs (a : A) : files_checked fs (mret a).
Proof. by intros g Hg. Qed.

Lemma checked_lift {A} fs (o : outcome A) : files_checked fs (lift o).
Proof. by intros g Hg. Qed.

Lemma checked_story_append fs b :
  Forall (fun p => fs p = true) (images b) -> files_checked fs (story_append b).
Proof.
  intros Hb g Hg. simpl. rewrite story_images_app. apply Forall_app. split; [done|].
  unfold story_images. simpl. by rewrite app_nil_r.
Qed.

Lemma checked_bind {A B} fs (m : M A) (k : A -> M B) :
  files_checked fs m -> (forall a, files_checked fs (k a)) ->
  files_checked fs (m ≫= k).
Proof.
  intros Hm Hk g Hg. specialize (Hm g Hg). unfold mbind, prog_bind.
  destruct (m g) as [g' [a|e]]; simpl in *; [by apply Hk | done].
Qed.

Lemma checked_for_each {A} fs (l : list A) (body : A -> M unit) :
  (forall x, files_checked fs (body x)) -> files_checked fs (for_each l body).
Proof.
  intros Hb. induction l as [|x l IH]; simpl.
  - apply checked_ret.
  - apply checked_bind; [apply Hb | intros _; apply IH].
Qed.

Lemma checked_guard fs logo (m : M unit) :
  (fs logo = true -> files_checked fs m) ->
  files_checked fs (if str_truthy logo && fs logo then m else mret tt).
Proof.
  intros Hm. destruct (fs logo) eqn:Hlogo.
  - destruct (str_truthy logo); simpl; [by apply Hm | apply checked_ret].
  - rewrite andb_false_r. apply checked_ret.
Qed.

Lemma checked_add_menu_item fs name description price is_vegan is_vegetarian :
  files_checked fs (add_menu_item fs name description price is_vegan is_vegetarian).
Proof.
  intros g Hg.
  destruct (add_menu_item_block fs name description price is_vegan is_vegetarian g)
    as (b & -> & _ & Himg).
  simpl. rewrite story_images_app. apply Forall_app. split; [done|].
  unfold story_images. simpl. rewrite app_nil_r, Himg.
  destruct (chosen_icon fs g is_vegan is_vegetarian) as [p|] eqn:Hicon; simpl.
  - constructor; [|done]. by apply chosen_icon_sound in Hicon as [? _].
  - done.
Qed.

Ltac checked_steps :=
  cbv zeta;
  repeat lazymatch goal with
    | |- files_checked _ (add_menu_item _ _ _ _ _ _) => apply checked_add_menu_item
    | |- files_checked _ (_ ≫= _) => apply checked_bind; [| intros ?]
    | |- files_checked _ (for_each _ _) => apply checked_for_each; intros ?
    | |- files_checked _ (if _ then _ else _) => apply checked_guard; intros ?
    | |- files_checked _ (story_append _) =>
        apply checked_story_append; simpl; repeat constructor; assumption
    | |- files_checked _ (lift _) => apply checked_lift
    | |- files_checked _ (mret _) => apply checked_ret
    end.

Lemma checked_add_cover_page fs logo : files_checked fs (add_cover_page fs logo).
Proof. unfold add_cover_page. checked_steps. Qed.

Lemma checked_add_contact_page fs logo : files_checked fs (add_contact_page fs logo).
Proof. unfold add_contact_page. checked_steps. Qed.

Lemma checked_add_section fs up title items :
  files_checked fs (add_section fs up title items).
Proof. unfold add_section. checked_steps. Qed.

Lemma checked_add_info_box fs text : files_checked fs (add_info_box text).
Proof. unfold add_info_box. checked_steps. Qed.

Lemma checked_do_call fs up c : files_checked fs (do_call fs up c).
Proof.
  destruct c; simpl;
    auto using checked_add_menu_item, checked_add_cover_page,
      checked_add_section, checked_add_info_box, checked_add_contact_page.
Qed.

(** X6. The builder puts an image in the story only after
    [os.path.exists] found its file: if every image of the story refers
    to a file the file system has, this is still so after any sequence
    of calls, also one that ends in an error. *)
Theorem run_keeps_images_on_file fs up calls g :
  Forall (fun p => fs p = true) (story_images (story g)) ->
  Forall (fun p => fs p = true) (story_images (story (exec (run fs up calls) g))).
Proof.
  revert g. unfold exec, run.
  apply (checked_for_each fs calls (do_call fs up)). apply checked_do_call.
Qed.

Lemma run_keeps_images_on_file_witness :
  Forall (fun p => String.eqb p "logo.png" = true)
    (story_images
       (story (exec (run (fun p => String.eqb p "logo.png") ascii_upper
                       [Call_add_cover_page "logo.png";
                        Call_add_section "Salads" salads;
                        Call_add_contact_page "missing.png"])
                 (init "menu.pdf")))).
Proof.
  apply (run_keeps_images_on_file (fun p => String.eqb p "logo.png")).
  constructor.
Defined.

(** ** The texts of the story do not depend on the file system *)

Lemma texts_ret {A} (a : A) : same_texts (mret a) (mret a).
Proof. by intros g1 g2 H. Qed.

Lemma texts_lift {A} (o : outcome A) : same_texts (lift o) (lift o).
Proof. by intros g1 g2 H. Qed.

Lemma texts_story_append b1 b2 :
  texts b1 = texts b2 -> same_texts (story_append b1) (story_append b2).
Proof.
  intros Hb g1 g2 H. simpl. split; [|done].
  rewrite !story_texts_app, H. unfold story_texts. simpl. by rewrite Hb.
Qed.

Lemma texts_bind {A B} (m1 m2 : M A) (k1 k2 : A -> M B) :
  same_texts m1 m2 -> (forall a, same_texts (k1 a) (k2 a)) ->
  same_texts (m1 ≫= k1) (m2 ≫= k2).
Proof.
  intros Hm Hk g1 g2 H. destruct (Hm g1 g2 H) as [Ht Hr].
  unfold mbind, prog_bind.
  destruct (m1 g1) as [g1' r1], (m2 g2) as [g2' r2]. simpl in *. subst r2.
  destruct r1 as [a|e]; [by apply Hk | done].
Qed.

Lemma texts_for_each {A} (l : list A) (body1 body2 : A -> M unit) :
  (forall x, same_texts (body1 x) (body2 x)) ->
  same_texts (for_each l body1) (for_each l body2).
Proof.
  intros Hb. induction l as [|x l IH]; simpl.
  - apply texts_ret.
  - apply texts_bind; [apply Hb | intros _; apply IH].
Qed.

(** The texts of an item block are the same in the three branches. *)
Lemma add_menu_item_texts fs name description price is_vegan is_vegetarian g :
  exists b,
    add_menu_item fs name description price is_vegan is_vegetarian g
      = (set_story (story g ++ [b; Spacer (Num 1) (Inches 0.01)]) g, Returns tt)
    /\ texts b = [bold name; bold price; description; VStr ""].
Proof.
  unfold add_menu_item, mbind, prog_bind, self, story_append. simpl.
  rewrite <- app_assoc. simpl.
  destruct (py_truthy is_vegan && str_truthy (vegan_icon_path g)
            && fs (vegan_icon_path g)).
  { eexists. split; reflexivity. }
  destruct (py_truthy is_vegetarian && str_truthy (vegetarian_icon_path g)
            && fs (vegetarian_icon_path g)).
  { eexists. split; reflexivity. }
  eexists. split; reflexivity.
Qed.

Lemma texts_add_menu_item fs1 fs2 name description price is_vegan is_vegetarian :
  same_texts (add_menu_item fs1 name description price is_vegan is_vegetarian)
    (add_menu_item fs2 name description price is_vegan is_vegetarian).
Proof.
  intros g1 g2 H.
  destruct (add_menu_item_texts fs1 name description price is_vegan is_vegetarian g1)
    as (b1 & -> & Hb1).
  destruct (add_menu_item_texts fs2 name description price is_vegan is_vegetarian g2)
    as (b2 & -> & Hb2).
  simpl. split; [|done].
  rewrite !story_texts_app, H. unfold story_texts. simpl. by rewrite Hb1, Hb2.
Qed.

(** A guarded run of appends of blocks without text against another. *)
Lemma texts_guard (c1 c2 : bool) (m : M unit) :
  same_texts m (mret tt) ->
  same_texts (if c1 then m else mret tt) (if c2 then m else mret tt).
Proof.
  intros Hm. destruct c1, c2; try done.
  - intros g1 g2 H. destruct (Hm g1 g1 eq_refl) as [Ht1 Hr1].
    destruct (Hm g2 g2 eq_refl) as [Ht2 Hr2]. simpl in *.
    split; [by rewrite Ht1, Ht2 | by rewrite Hr1, Hr2].
  - intros g1 g2 H. destruct (Hm g2 g2 eq_refl) as [Ht2 Hr2]. simpl in *.
    split; [by rewrite Ht2 | by rewrite Hr2].
Qed.

Lemma texts_add_cover_page fs1 fs2 logo :
  same_texts (add_cover_page fs1 logo) (add_cover_page fs2 logo).
Proof.
  unfold add_cover_page. cbv zeta.
  do 3 (apply texts_bind; [by apply texts_story_append | intros _]).
  apply texts_bind.
  - apply texts_guard. intros g1 g2 H. simpl. split; [|done].
    rewrite <- app_assoc, story_texts_app. simpl. by rewrite app_nil_r.
  - intros _.
    repeat first [ apply texts_bind; [by apply texts_story_append | intros _]
                 | by apply texts_story_append ].
Qed.

Lemma texts_add_contact_page fs1 fs2 logo :
  same_texts (add_contact_page fs1 logo) (add_contact_page fs2 logo).
Proof.
  unfold add_contact_page. cbv zeta.
  do 10 (apply texts_bind; [by apply texts_story_append | intros _]).
  apply texts_guard. intros g1 g2 H. simpl. split; [|done].
  rewrite story_texts_app. simpl. by rewrite app_nil_r.
Qed.

Lemma texts_add_section fs1 fs2 up title items :
  same_texts (add_section fs1 up title items) (add_section fs2 up title items).
Proof.
  unfold add_section. cbv zeta.
  do 4 (apply texts_bind; [by apply texts_story_append | intros _]).
  apply texts_bind; [|intros _; by apply texts_story_append].
  apply texts_for_each. intros item.
  do 3 (apply texts_bind; [apply texts_lift | intros ?]).
  apply texts_add_menu_item.
Qed.

Lemma texts_add_info_box text : same_texts (add_info_box text) (add_info_box text).
Proof.
  unfold add_info_box. cbv zeta.
  apply texts_bind; [by apply texts_story_append | intros _].
  by apply texts_story_append.
Qed.

Lemma texts_do_call fs1 fs2 up c : same_texts (do_call fs1 up c) (do_call fs2 up c).
Proof.
  destruct c; simpl;
    auto using texts_add_menu_item, texts_add_cover_page, texts_add_section,
      texts_add_info_box, texts_add_contact_page.
Qed.

(** X7. The file system decides which images are in the document and
    nothing else: for any two file systems, the same sequence of calls on
    the same generator leaves stories with the same texts in the same
    order, and ends with the same outcome. *)
Theorem run_texts_do_not_depend_on_files fs1 fs2 up calls g :
  story_texts (story (exec (run fs1 up calls) g))
  = story_texts (story (exec (run fs2 up calls) g))
  /\ (run fs1 up calls g).2 = (run fs2 up calls g).2.
Proof.
  unfold exec, run.
  apply (texts_for_each calls (do_call fs1 up) (do_call fs2 up)); [|done].
  intros c. apply texts_do_call.
Qed.

(** ** [main] *)

Lemma appender_returns {A} (m : M A) (a : A) g :
  appender m ->
  (m (set_story [] g)).2 = Returns a ->
  exists d, forall l, m (set_story l g) = (set_story (l ++ d) g, Returns a).
Proof.
  intros Hm Hr. destruct (Hm g) as (d & r & E). exists d. intros l.
  rewrite (E []) in Hr. simpl in Hr. subst r. apply E.
Qed.

Lemma add_cover_page_returns fs logo g :
  exists d, forall l,
    add_cover_page fs logo (set_story l g) = (set_story (l ++ d) g, Returns tt).
Proof.
  apply appender_returns; [apply appender_add_cover_page|].
  unfold add_cover_page, mbind, prog_bind, story_append.
  by destruct (str_truthy logo && fs logo).
Qed.

Lemma add_contact_page_returns fs logo g :
  exists d, forall l,
    add_contact_page fs logo (set_story l g) = (set_story (l ++ d) g, Returns tt).
Proof.
  apply appender_returns; [apply appender_add_contact_page|].
  unfold add_contact_page, mbind, prog_bind, story_append.
  by destruct (str_truthy logo && fs logo).
Qed.

Lemma add_info_box_returns text g :
  exists d, forall l,
    add_info_box text (set_story l g) = (set_story (l ++ d) g, Returns tt).
Proof. apply appender_returns; [apply appender_add_info_box | done]. Qed.

Lemma add_section_returns fs up title items g :
  Forall (fun item => first_missing item = None) items ->
  exists d, forall l,
    add_section fs up title items (set_story l g) = (set_story (l ++ d) g, Returns tt).
Proof.
  intros Hitems. apply appender_returns; [apply appender_add_section|].
  by rewrite add_section_complete_run.
Qed.

(** A call that returns, followed by a continuation. *)
Lemma seq_returns {B} (m : M unit) (k : unit -> M B) g0
    (R : list flowable -> outcome B) :
  (exists d, forall l, m (set_story l g0) = (set_story (l ++ d) g0, Returns tt)) ->
  (forall l, exists L, k tt (set_story l g0) = (set_story L g0, R L)) ->
  forall l, exists L, (m ≫= k) (set_story l g0) = (set_story L g0, R L).
Proof.
  intros (d & E) Hk l. destruct (Hk (l ++ d)) as (L & EL). exists L.
  by rewrite (bind_returns _ _ _ _ _ (E l)).
Qed.

Lemma menu_data_complete :
  Forall (fun item => first_missing item = None)
    (cold_mezzes ++ warm_mezzes ++ tasting_menus ++ dishes ++ skewers
     ++ lunch_dishes ++ sandwiches ++ salads).
Proof. repeat constructor. Qed.

Lemma main_calls_run fs up doc_build :
  exists L,
    main_calls fs up doc_build (init "east_west_menu.pdf")
    = (set_story L (init "east_west_menu.pdf"), doc_build "east_west_menu.pdf" L).
Proof.
  pose proof menu_data_complete as Hdata.
  repeat (apply Forall_app in Hdata as [? Hdata]).
  change (init "east_west_menu.pdf") with (set_story [] (init "east_west_menu.pdf")) at 1.
  generalize (@nil flowable). unfold main_calls.
  apply seq_returns; [apply add_cover_page_returns | intros ?].
  do 2 (apply seq_returns; [by apply add_section_returns | intros ?]).
  apply seq_returns; [apply add_info_box_returns | intros ?].
  do 2 (apply seq_returns; [by apply add_section_returns | intros ?]).
  apply seq_returns; [apply add_info_box_returns | intros ?].
  apply seq_returns; [by apply add_section_returns | intros ?].
  apply seq_returns; [apply add_info_box_returns | intros ?].
  do 3 (apply seq_returns; [by apply add_section_returns | intros ?]).
  apply seq_returns; [apply add_contact_page_returns | intros ?].
  by eexists.
Qed.

(** X8. [main] never fails before [build]: every item of its data has
    its keys, so with any file system all builder calls return, and
    [doc.build] is called once, on the file name east_west_menu.pdf and
    the whole story. The outcome of [main] is the outcome of that call:
    what it raises is not caught, and the two closing lines are printed
    only when it returned. *)
Theorem main_outcome_is_build_outcome fs up doc_build :
  exists pdf,
    filename pdf = "east_west_menu.pdf"
    /\ main fs up doc_build
       = (pdf,
          match doc_build (filename pdf) (story pdf) with
          | Returns _ =>
              ["PDF menu generated successfully!"; "Saved to: east_west_menu.pdf"]
          | Raises _ => []
          end,
          doc_build (filename pdf) (story pdf)).
Proof.
  destruct (main_calls_run fs up doc_build) as (L & E).
  exists (set_story L (init "east_west_menu.pdf")). split; [done|].
  unfold main. rewrite E. simpl.
  by destruct (doc_build "east_west_menu.pdf" L) as [[]|e].
Qed.

(** ** Runs on two file systems *)

(** X14. A sequence of calls depends on the file system only through
    the paths it refers to: two file systems that agree on the two icon
    paths of the generator and on the logo path of every cover and
    contact call give the same generator and the same outcome. *)
Theorem run_depends_on_referenced_paths fs1 fs2 up calls g :
  fs1 (vegan_icon_path g) = fs2 (vegan_icon_path g) ->
  fs1 (vegetarian_icon_path g) = fs2 (vegetarian_icon_path g) ->
  Forall (fun c =>
            match c with
            | Call_add_cover_page logo | Call_add_contact_page logo =>
                fs1 logo = fs2 logo
            | _ => True
            end) calls ->
  run fs1 up calls g = run fs2 up calls g.
Proof.
  intros Hvegan Hvegetarian Hcalls. rewrite <- (set_story_id g).
  by apply run_ext.
Qed.

Lemma run_depends_on_referenced_paths_witness :
  run (fun _ => true) ascii_upper
    [Call_add_cover_page "logo.png"; Call_add_section "Salads" salads]
    (init "menu.pdf")
  = run (fun p => negb (String.eqb p "banner.png")) ascii_upper
      [Call_add_cover_page "logo.png"; Call_add_section "Salads" salads]
      (init "menu.pdf").
Proof.
  apply (run_depends_on_referenced_paths (fun _ => true)
           (fun p => negb (String.eqb p "banner.png")));
    [reflexivity | reflexivity | repeat constructor].
Defined.

End BuilderMore.

(** * Further properties of the HTML driver *)

Module HtmlDriverMore.
Import FromHtml HtmlDoc HtmlDriver.

Section Facts.

Variable path_exists : string -> bool.
Variable path_join : string -> string -> string.
Variable script_dir : string.
Variables css html : Type.
Variable weasy_CSS : string -> outcome css.
Variable weasy_HTML : string -> outcome html.
Variable weasy_write_pdf : html -> string -> list css -> outcome unit.

Let html_file := path_join script_dir "menu_editor.html".
Let output_pdf := path_join script_dir "east_west_menu_final.pdf".
Let run_generate_pdf :=
  generate_pdf path_exists path_join script_dir css html
    weasy_CSS weasy_HTML weasy_write_pdf.
Let the_rendering :=
  rendering path_join script_dir css html weasy_CSS weasy_HTML weasy_write_pdf.
Let the_calls := calls_made path_join script_dir css html weasy_CSS weasy_HTML.

(** The [try] body, run: the calls made, then the continuation or the
    exception. *)
Lemma try_body_run tr (k : IO bool) :
  ((pdf_css ← CSS css weasy_CSS pdf_css_source ;
    doc ← HTML html weasy_HTML html_file ;
    write_pdf css html weasy_write_pdf html_file doc output_pdf [pdf_css] ;;
    k) tr)
  = match the_rendering with
    | Returns _ => k (tr ++ the_calls)
    | Raises e => (tr ++ the_calls, Raises e)
    end.
Proof.
  unfold the_rendering, rendering, the_calls, calls_made, CSS, HTML, write_pdf,
    emit, lift, mbind, prog_bind.
  fold html_file. fold output_pdf.
  destruct (weasy_CSS pdf_css_source) as [c|e]; [|done].
  destruct (weasy_HTML html_file) as [d|e]; [|by rewrite <- app_assoc].
  rewrite <- !app_assoc. simpl.
  by destruct (weasy_write_pdf d output_pdf [c]) as [[]|e].
Qed.

(** What [generate_pdf] does and gives back, in every case. *)
Lemma generate_pdf_run tr :
  run_generate_pdf tr
  = if path_exists html_file then
      match the_rendering with
      | Returns _ =>
          (tr ++ [Print ("Reading HTML from: " +:+ html_file);
                  Print "Generating PDF..."]
              ++ the_calls
              ++ [Print "✓ PDF generated successfully!";
                  Print ("✓ Saved to: " +:+ output_pdf)],
           Returns true)
      | Raises e =>
          if is_Exception e then
            (tr ++ [Print ("Reading HTML from: " +:+ html_file);
                    Print "Generating PDF..."]
                ++ the_calls
                ++ [Print ("Error generating PDF: " +:+ exc_text e)],
             Returns false)
          else
            (tr ++ [Print ("Reading HTML from: " +:+ html_file);
                    Print "Generating PDF..."]
                ++ the_calls,
             Raises e)
      end
    else (tr ++ [Print ("Error: HTML file not found at " +:+ html_file)],
          Returns false).
Proof.
  unfold run_generate_pdf, generate_pdf. fold html_file. fold output_pdf.
  destruct (path_exists html_file);
    [simpl (negb true) | simpl (negb false)]; cbv iota; [|done].
  do 2 (erewrite prog_bind_returns; [|reflexivity]).
  unfold try_except_Exception. rewrite try_body_run.
  destruct the_rendering as [[]|e].
  - do 2 (erewrite prog_bind_returns; [|reflexivity]).
    unfold mret, prog_ret. by rewrite <- !app_assoc.
  - destruct (is_Exception e).
    + erewrite prog_bind_returns; [|reflexivity].
      unfold mret, prog_ret. by rewrite <- !app_assoc.
    + by rewrite <- !app_assoc.
Qed.

(** X9. [generate_pdf] returns [True] exactly when the HTML file exists
    and the three calls into weasyprint all return; in every other case
    in which it returns, it returns [False]. *)
Theorem generate_pdf_true_iff tr :
  ((run_generate_pdf tr).2 = Returns true
   <-> path_exists html_file = true /\ the_rendering = Returns tt)
  /\ forall b, (run_generate_pdf tr).2 = Returns b ->
       b = true \/ (b = false /\ (path_exists html_file = false
                                 \/ exists e, the_rendering = Raises e
                                              /\ is_Exception e = true)).
Proof.
  rewrite generate_pdf_run.
  destruct (path_exists html_file); [|simpl; split; [|intros b [= <-]]; naive_solver].
  destruct the_rendering as [[]|e]; [simpl; split; [|intros b [= <-]]; naive_solver|].
  destruct (is_Exception e) eqn:He; simpl.
  - split; [naive_solver|]. intros b [= <-]. right. split; [done|]. right. by exists e.
  - split; [naive_solver|]. by intros b.
Qed.

(** X10. No call is made for nothing: [HTML(...)] is called exactly when
    the file exists and [CSS(...)] returned, and [write_pdf], the only
    call that writes a file, exactly when the file exists and both
    [CSS(...)] and [HTML(...)] returned; then it is called on the HTML
    file with the output path of the script. *)
Theorem calls_into_weasyprint f t :
  (Call_HTML f ∈ (run_generate_pdf []).1
   <-> path_exists html_file = true
       /\ (exists c, weasy_CSS pdf_css_source = Returns c)
       /\ f = html_file)
  /\ (Call_write_pdf f t ∈ (run_generate_pdf []).1
      <-> path_exists html_file = true
          /\ (exists c, weasy_CSS pdf_css_source = Returns c)
          /\ (exists d, weasy_HTML html_file = Returns d)
          /\ f = html_file /\ t = output_pdf).
Proof.
  rewrite generate_pdf_run.
  unfold the_rendering, rendering, the_calls, calls_made.
  fold html_file. fold output_pdf.
  destruct (path_exists html_file).
  2:{ simpl. rewrite !list_elem_of_singleton. naive_solver. }
  destruct (weasy_CSS pdf_css_source) as [c|e].
  2:{ destruct (is_Exception e); simpl;
        rewrite ?elem_of_cons, ?elem_of_nil; naive_solver. }
  destruct (weasy_HTML html_file) as [d|e].
  2:{ destruct (is_Exception e); simpl;
        rewrite ?elem_of_cons, ?elem_of_nil; naive_solver. }
  destruct (weasy_write_pdf d output_pdf [c]) as [[]|e];
    [|destruct (is_Exception e)]; simpl;
    rewrite ?elem_of_cons, ?elem_of_nil; naive_solver.
Qed.

(** X11. How the script ends, in every case: exit code 0 when the file
    exists and weasyprint returns; exit code 1 when the file is missing
    or a call into weasyprint raises an instance of [Exception]; and when
    a call raises an object that is not one, that object leaves the
    script uncaught. *)
Theorem script_exit_status :
  (script path_exists path_join script_dir css html
     weasy_CSS weasy_HTML weasy_write_pdf).2
  = if path_exists html_file then
      match the_rendering with
      | Returns _ => Exit 0
      | Raises e => if is_Exception e then Exit 1 else Uncaught e
      end
    else Exit 1.
Proof.
  unfold script. fold run_generate_pdf. rewrite generate_pdf_run.
  destruct (path_exists html_file); [|done].
  destruct the_rendering as [[]|e]; [done|]. by destruct (is_Exception e).
Qed.

(** X12. An object that is not an instance of [Exception], such as
    [KeyboardInterrupt], raised by a call into weasyprint is not caught:
    it leaves [generate_pdf] after the calls made so far, no error line
    is printed and nothing is returned. *)
Theorem uncaught_object_leaves_generate_pdf tr e :
  path_exists html_file = true ->
  the_rendering = Raises e ->
  is_Exception e = false ->
  run_generate_pdf tr
  = (tr ++ [Print ("Reading HTML from: " +:+ html_file);
            Print "Generating PDF..."]
        ++ the_calls,
     Raises e).
Proof.
  intros Hexists Hraises Hclass.
  by rewrite generate_pdf_run, Hexists, Hraises, Hclass.
Qed.

(** X13. When the file exists and every call into weasyprint returns,
    [generate_pdf] prints the two progress lines, builds the stylesheet,
    opens the HTML file, writes the PDF to the output path with that one
    stylesheet, prints the two closing lines, the second naming the
    output path, and returns [True]. *)
Theorem generate_pdf_success_trace tr :
  path_exists html_file = true ->
  the_rendering = Returns tt ->
  run_generate_pdf tr
  = (tr ++ [Print ("Reading HTML from: " +:+ html_file);
            Print "Generating PDF...";
            Call_CSS pdf_css_source; Call_HTML html_file;
            Call_write_pdf html_file output_pdf;
            Print "✓ PDF generated successfully!";
            Print ("✓ Saved to: " +:+ output_pdf)],
     Returns true).
Proof.
  intros Hexists Hok. rewrite generate_pdf_run, Hexists, Hok.
  unfold the_rendering, rendering in Hok. unfold the_calls, calls_made.
  fold html_file in Hok |- *. fold output_pdf in Hok |- *.
  destruct (weasy_CSS pdf_css_source) as [c|]; [|done].
  by destruct (weasy_HTML html_file) as [d|].
Qed.

End Facts.

Lemma uncaught_object_leaves_generate_pdf_witness :
  generate_pdf (fun _ => true) (fun d f => d +:+ "/" +:+ f) "/srv/menu"
    string string (fun src => Returns src)
    (fun _ => Raises (BaseExceptionOnly "KeyboardInterrupt" ""))
    (fun _ _ _ => Returns tt) []
  = ([] ++ [Print ("Reading HTML from: "
                   +:+ ("/srv/menu" +:+ "/" +:+ "menu_editor.html"));
            Print "Generating PDF..."]
        ++ calls_made (fun d f => d +:+ "/" +:+ f) "/srv/menu" string string
             (fun src => Returns src)
             (fun _ => Raises (BaseExceptionOnly "KeyboardInterrupt" "")),
     Raises (BaseExceptionOnly "KeyboardInterrupt" "")).
Proof.
  apply (uncaught_object_leaves_generate_pdf (fun _ => true)
           (fun d f => d +:+ "/" +:+ f) "/srv/menu" string string
           (fun src => Returns src)
           (fun _ => Raises (BaseExceptionOnly "KeyboardInterrupt" ""))
           (fun _ _ _ => Returns tt) []);
    reflexivity.
Defined.

Lemma generate_pdf_success_trace_witness :
  generate_pdf (fun _ => true) (fun d f => d +:+ "/" +:+ f) "/srv/menu"
    string string (fun src => Returns src) (fun f => Returns f)
    (fun _ _ _ => Returns tt) []
  = ([] ++ [Print ("Reading HTML from: "
                   +:+ ("/srv/menu" +:+ "/" +:+ "menu_editor.html"));
            Print "Generating PDF...";
            Call_CSS pdf_css_source;
            Call_HTML ("/srv/menu" +:+ "/" +:+ "menu_editor.html");
            Call_write_pdf ("/srv/menu" +:+ "/" +:+ "menu_editor.html")
              ("/srv/menu" +:+ "/" +:+ "east_west_menu_final.pdf");
            Print "✓ PDF generated successfully!";
            Print ("✓ Saved to: "
                   +:+ ("/srv/menu" +:+ "/" +:+ "east_west_menu_final.pdf"))],
     Returns true).
Proof.
  apply (generate_pdf_success_trace (fun _ => true) (fun d f => d +:+ "/" +:+ f)
           "/srv/menu" string string (fun src => Returns src) (fun f => Returns f)
           (fun _ _ _ => Returns tt) []);
    reflexivity.
Defined.

End HtmlDriverMore.
